(** * San Diego homelessness statistics: the query layer and the aggregation builder

    A shallow embedding of [src/api/queries.py] (six read operations over
    the derived parquet datasets), of [src/pipeline/transform.py] (the
    offline builder that writes those datasets) and of
    [src/pipeline/ingest.py] (the check of the raw files), with the
    properties the specification states about them and further properties
    of the code.

    Conventions of the embedding.
    - A parquet file is the list of its rows, in file order; a file that
      does not exist is [None].  Reading a missing file makes DuckDB raise,
      which is the exception [IOException] here.
    - A nullable SQL column is an [option]; SQL comparisons with NULL are
      not true, so a row with a NULL key never passes a WHERE clause.
    - Python code that calls DuckDB is written in a state-and-exception
      monad: the state holds the files and the connection bookkeeping, an
      exception aborts the rest of the function body.
    - An SQL statement is the function from the files to its result rows.
      ORDER BY is a merge sort by the stated key, NULLS LAST (DuckDB's
      default); every stated ordering property is independent of how ties
      are broken.  A name in ORDER BY that is both a raw column and an
      output alias is the output alias.
    - SQL text assembled with f-strings is kept structured: a WHERE clause
      is the list of its conditions.  A Python string put between quotes
      with its quotes doubled is read back by DuckDB as that string, so a
      text comparison is with the string itself.
    - An integer argument pasted into SQL text is compared as that integer.
      DuckDB types a literal by its size, so the theorems that state what
      such a comparison selects take the argument in the range of the
      INTEGER columns it is compared with (32 bits); likewise the Python
      division of the overview is the IEEE quotient for 32-bit totals, and
      the theorems about the percentage take the totals in that range.
    - What DuckDB computes and this repository does not define (the integer
      cast, the text of a raw value, the sum of amounts) is an [Engine].
    - Of the file system, [ingest] sees whether [data/raw] is a directory
      and the sizes of the files; other failures of the file system are not
      modelled.
    - Not modelled: the directories that [transform] creates, the optional
      [db_path] of [transform] (one database file), the wording of printed
      lines, and the conversion of results to pandas frames and
      dictionaries. *)

From Stdlib Require Import ZArith Floats Uint63.
From stdpp Require Import base option list sorting gmap strings.

Local Open Scope Z_scope.

(** ** Exceptions and the state-and-exception monad *)

Inductive exn : Type :=
| IOException        (* DuckDB: file not found *)
| BinderException    (* DuckDB: referenced column not found *)
| CatalogException   (* DuckDB: table missing, or already there *)
| TypeError          (* Python: int(None) *)
| ZeroDivisionError  (* Python: x / 0 *)
| FileExistsError.   (* Python: mkdir on a path that is a regular file *)

Inductive result (A : Type) : Type :=
| Ok (a : A)
| Raise (e : exn).
Arguments Ok {A} a.
Arguments Raise {A} e.

Definition is_ok {A} (r : result A) : bool :=
  match r with Ok _ => true | Raise _ => false end.

Definition M (S A : Type) : Type := S → result A * S.

Definition ret {S A} (a : A) : M S A := λ s, (Ok a, s).

Definition bind {S A B} (m : M S A) (k : A → M S B) : M S B :=
  λ s, match m s with
       | (Ok a, s') => k a s'
       | (Raise e, s') => (Raise e, s')
       end.

(** [try: m except Exception: h]; the handler runs in the state the body
    left behind. *)
Definition try_except {S A} (m : M S A) (h : M S A) : M S A :=
  λ s, match m s with
       | (Ok a, s') => (Ok a, s')
       | (Raise _, s') => h s'
       end.

Definition lift {S A} (r : result A) : M S A := λ s, (r, s).

Notation "'let*' x ':=' m 'in' k" := (bind m (λ x, k))
  (at level 10, x pattern, m at level 100, k at level 200) : stdpp_scope.
Notation "'run' m 'then' k" := (bind m (λ _, k))
  (at level 10, m at level 100, k at level 200) : stdpp_scope.

(** ** The derived datasets *)

Module Trend.
Record row : Type := {
  year : option Z;
  total : option Z;
  sheltered : option Z;
  unsheltered : option Z }.
End Trend.

Module Subpop.
Record row : Type := {
  year : option Z;
  group_name : option string;
  count : option Z }.
End Subpop.

Module Geo.
Record row : Type := {
  year : option Z;
  region : option string;
  total : option Z;
  sheltered : option Z;
  unsheltered : option Z }.
End Geo.

Module Spending.
Record row (money : Type) : Type := {
  fiscal_year : option Z;
  amount : option money }.
Arguments fiscal_year {money} _.
Arguments amount {money} _.
End Spending.

(** The directory [data/aggregated]: one optional file per dataset. *)
Record aggregated (amount : Type) : Type := {
  pit_trends : option (list Trend.row);
  pit_subpopulations : option (list Subpop.row);
  pit_geography : option (list Geo.row);
  homelessness_spending : option (list (Spending.row amount)) }.
Arguments pit_trends {amount} _.
Arguments pit_subpopulations {amount} _.
Arguments pit_geography {amount} _.
Arguments homelessness_spending {amount} _.

(** ** SQL building blocks *)

(** [FROM 'file.parquet']: the rows, or DuckDB's error for a missing file. *)
Definition scan {R} (file : option (list R)) : result (list R) :=
  match file with
  | Some rows => Ok rows
  | None => Raise IOException
  end.

(** Ascending order of a nullable integer key, NULLS LAST. *)
Definition asc_leb (x y : option Z) : bool :=
  match x, y with
  | Some a, Some b => a <=? b
  | _, None => true
  | None, Some _ => false
  end.

(** Descending order of a nullable integer key, NULLS LAST. *)
Definition desc_leb (x y : option Z) : bool :=
  match x, y with
  | Some a, Some b => b <=? a
  | _, None => true
  | None, Some _ => false
  end.

(** Ascending order of a nullable text key (binary collation), NULLS LAST. *)
Definition text_leb (x y : option string) : bool :=
  match x, y with
  | Some a, Some b => String.leb a b
  | _, None => true
  | None, Some _ => false
  end.

(** Strictly-before for a nullable integer key in ascending order. *)
Definition asc_ltb (x y : option Z) : bool := negb (asc_leb y x).

(** [ORDER BY k1, k2]: first key, ties broken by the second. *)
Definition lex_leb {A} (lt1 : A → A → bool) (le1 le2 : A → A → bool)
    (a b : A) : bool :=
  lt1 a b || (le1 a b && le2 a b).

(** The relation a boolean comparison decides. *)
Definition rel_of {A} (leb : A → A → bool) : relation A :=
  λ a b, Is_true (leb a b).

Global Instance rel_of_dec {A} (leb : A → A → bool) : RelDecision (rel_of leb).
Proof. intros a b. unfold rel_of. apply _. Defined.

Definition order_by {A} (leb : A → A → bool) (rows : list A) : list A :=
  merge_sort (rel_of leb) rows.

(** [SELECT MAX(k)]: NULL keys are ignored, the result is NULL when no row
    has a key. *)
Definition sql_max (keys : list (option Z)) : option Z :=
  foldr (λ k acc, match k, acc with
                  | Some a, Some b => Some (Z.max a b)
                  | Some a, None => Some a
                  | None, _ => acc
                  end) None keys.

(** [k >= n], [k <= n], [k = n] on a nullable integer column, for a
    literal [n] that DuckDB reads as an integer it can compare with the
    column (every [n] of the INTEGER range, and [n - 1] for such an [n]). *)
Definition sql_ge (k : option Z) (n : Z) : bool :=
  match k with Some a => n <=? a | None => false end.
Definition sql_le (k : option Z) (n : Z) : bool :=
  match k with Some a => a <=? n | None => false end.
Definition sql_eq (k : option Z) (n : Z) : bool :=
  match k with Some a => a =? n | None => false end.

(** [k = 'text'] on a nullable text column. *)
Definition sql_text_eq (k : option string) (s : string) : bool :=
  match k with Some a => bool_decide (a = s) | None => false end.

(** [cursor.fetchone()]: the first result row, [None] when there is none. *)
Definition fetchone {A} (rows : list A) : option A := head rows.

(** ** Python arithmetic used by the overview *)

(** [float(n)] for an integer that a double holds exactly (below [2^53]
    in magnitude; every 32-bit INTEGER and every difference of two). *)
Definition float_of_int (n : Z) : float :=
  if n <? 0 then PrimFloat.opp (PrimFloat.of_uint63 (Uint63.of_Z (- n)))
  else PrimFloat.of_uint63 (Uint63.of_Z n).

(** [a / b] on Python integers: true division, correctly rounded; for
    operands that a double holds exactly (all 32-bit INTEGER values and
    their differences) this is the IEEE quotient of the two conversions. *)
Definition py_truediv (a b : Z) : result float :=
  if b =? 0 then Raise ZeroDivisionError
  else Ok (PrimFloat.div (float_of_int a) (float_of_int b)).

(** Nearest integer to [n / d] ([d > 0]), ties to even. *)
Definition div_half_even (n d : Z) : Z :=
  let q := n / d in
  let r := n mod d in
  match 2 * r ?= d with
  | Lt => q
  | Gt => q + 1
  | Eq => if Z.even q then q else q + 1
  end.

(** [round(x, 1)]: the double nearest to the decimal obtained by rounding
    the exact value of [x] to one fractional digit, ties to even.  Zero,
    infinities and NaN are returned as they are; a double whose unit in the
    last place is at least [2^-3] is its own rounding. *)
Definition py_round1 (x : float) : float :=
  match Prim2SF x with
  | S754_finite s m e =>
      if -3 <=? e then x
      else
        let n := div_half_even (Z.pos m * 10) (2 ^ (- e)) in
        let r := PrimFloat.div (float_of_int n) (float_of_int 10) in
        if s then PrimFloat.opp r else r
  | _ => x
  end.

(** * The query layer: [src/api/queries.py] *)

(** The result of [get_filter_options]. *)
Record filter_options : Type := {
  years : list Z;
  regions : list string }.

(** The result of [get_overview]. *)
Module Overview.
Record response : Type := {
  year : Z;
  total : Z;
  sheltered : Z;
  unsheltered : Z;
  prior_year_total : option Z;
  yoy_change : option Z;
  yoy_pct : option float }.
End Overview.

(** One condition of a WHERE clause that the code assembles as text. *)
Inductive condition : Type :=
| year_ge (n : Z)               (* year >= n *)
| year_le (n : Z)               (* year <= n *)
| group_name_eq (s : string).   (* group_name = 's' *)

(** A WHERE clause is the conjunction of its conditions; the empty clause
    is the empty string of the source. *)
Definition where_clause : Type := list condition.

(** [_q(where, condition)] *)
Definition _q (where_ : where_clause) (c : condition) : where_clause :=
  match where_ with
  | [] => [c]
  | _ => where_ ++ [c]
  end.

(** [_where(year_min, year_max)] *)
Definition _where (year_min year_max : option Z) : where_clause :=
  let clauses := [] in
  let clauses := match year_min with
                 | Some n => clauses ++ [year_ge n]
                 | None => clauses
                 end in
  let clauses := match year_max with
                 | Some n => clauses ++ [year_le n]
                 | None => clauses
                 end in
  clauses.

(** Truth of a condition on a row with the given [year] and [group_name]. *)
Definition holds (yr : option Z) (grp : option string) (c : condition) : bool :=
  match c with
  | year_ge n => sql_ge yr n
  | year_le n => sql_le yr n
  | group_name_eq s => sql_text_eq grp s
  end.

Definition satisfies (yr : option Z) (grp : option string)
    (w : where_clause) : bool :=
  forallb (holds yr grp) w.

(** [int(x)] where [x] may be Python's [None]. *)
Definition py_int (x : option Z) : result Z :=
  match x with
  | Some n => Ok n
  | None => Raise TypeError
  end.

(** [if s:] on an optional string: [None] and the empty string are false. *)
Definition truthy (s : option string) : option string :=
  match s with
  | Some "" => None
  | other => other
  end.

Section Queries.
Context {amount : Type}.

(** What a serving process can observe: the derived files and how many
    DuckDB connections the query layer has opened and closed so far. *)
Record world : Type := {
  files : aggregated amount;
  opened : nat;
  closed : nat }.

(** A connection handle: the ordinal of the [connect()] call that made it. *)
Definition connection : Type := nat.

(** [duckdb.connect()] *)
Definition connect : M world connection :=
  λ w, (Ok (opened w),
        {| files := files w; opened := S (opened w); closed := closed w |}).

(** [con.close()] *)
Definition close (con : connection) : M world unit :=
  λ w, (Ok tt,
        {| files := files w; opened := opened w; closed := S (closed w) |}).

(** [con.execute(sql)] followed by fetching the result: the statement is
    a read of the files. *)
Definition execute {A} (con : connection)
    (sql : aggregated amount → result A) : M world A :=
  λ w, (sql (files w), w).

(** [_run(sql)] *)
Definition _run {A} (sql : aggregated amount → result (list A))
    : M world (list A) :=
  let* con := connect in
  let* df := execute con sql in
  run close con then
  ret df.

(** *** SQL statements of the module *)

(** SELECT DISTINCT year FROM pit_trends WHERE year IS NOT NULL ORDER BY year *)
Definition sql_distinct_years (a : aggregated amount) : result (list Z) :=
  match scan (pit_trends a) with
  | Ok rows => Ok (merge_sort Z.le (remove_dups (omap Trend.year rows)))
  | Raise e => Raise e
  end.

(** SELECT DISTINCT region FROM pit_geography WHERE region IS NOT NULL
    ORDER BY region *)
Definition sql_distinct_regions (a : aggregated amount)
    : result (list string) :=
  match scan (pit_geography a) with
  | Ok rows => Ok (merge_sort String.le (remove_dups (omap Geo.region rows)))
  | Raise e => Raise e
  end.

(** SELECT MAX(year) FROM pit_trends *)
Definition sql_max_trend_year (a : aggregated amount) : result (option Z) :=
  match scan (pit_trends a) with
  | Ok rows => Ok (sql_max (map Trend.year rows))
  | Raise e => Raise e
  end.

(** SELECT total, sheltered, unsheltered FROM pit_trends WHERE year = n *)
Definition sql_trend_counts (n : Z) (a : aggregated amount)
    : result (list (option Z * option Z * option Z)) :=
  match scan (pit_trends a) with
  | Ok rows =>
      Ok (map (λ r, (Trend.total r, Trend.sheltered r, Trend.unsheltered r))
              (filter (λ r, Is_true (sql_eq (Trend.year r) n)) rows))
  | Raise e => Raise e
  end.

(** SELECT total FROM pit_trends WHERE year = n *)
Definition sql_trend_total (n : Z) (a : aggregated amount)
    : result (list (option Z)) :=
  match scan (pit_trends a) with
  | Ok rows =>
      Ok (map Trend.total
              (filter (λ r, Is_true (sql_eq (Trend.year r) n)) rows))
  | Raise e => Raise e
  end.

(** SELECT year, total, sheltered, unsheltered FROM pit_trends w
    ORDER BY year *)
Definition sql_trends (w : where_clause) (a : aggregated amount)
    : result (list Trend.row) :=
  match scan (pit_trends a) with
  | Ok rows =>
      Ok (order_by (λ r1 r2, asc_leb (Trend.year r1) (Trend.year r2))
            (filter (λ r, Is_true (satisfies (Trend.year r) None w)) rows))
  | Raise e => Raise e
  end.

(** SELECT year, group_name, count FROM pit_subpopulations w
    ORDER BY year, group_name *)
Definition sql_subpopulations (w : where_clause) (a : aggregated amount)
    : result (list Subpop.row) :=
  match scan (pit_subpopulations a) with
  | Ok rows =>
      Ok (order_by
            (lex_leb
               (λ r1 r2, asc_ltb (Subpop.year r1) (Subpop.year r2))
               (λ r1 r2, asc_leb (Subpop.year r1) (Subpop.year r2))
               (λ r1 r2, text_leb (Subpop.group_name r1) (Subpop.group_name r2)))
            (filter (λ r, Is_true (satisfies (Subpop.year r)
                                     (Subpop.group_name r) w)) rows))
  | Raise e => Raise e
  end.

(** SELECT MAX(year) FROM pit_geography *)
Definition sql_max_geography_year (a : aggregated amount)
    : result (option Z) :=
  match scan (pit_geography a) with
  | Ok rows => Ok (sql_max (map Geo.year rows))
  | Raise e => Raise e
  end.

(** The WHERE clause of [get_geography]: [year = n], and
    [region = 'r'] when a region was appended. *)
Definition geography_filter (n : Z) (region : option string)
    (r : Geo.row) : bool :=
  sql_eq (Geo.year r) n &&
  match region with
  | Some s => sql_text_eq (Geo.region r) s
  | None => true
  end.

(** SELECT year, region, total, sheltered, unsheltered FROM pit_geography
    WHERE ... ORDER BY total DESC *)
Definition sql_geography (n : Z) (region : option string)
    (a : aggregated amount) : result (list Geo.row) :=
  match scan (pit_geography a) with
  | Ok rows =>
      Ok (order_by (λ r1 r2, desc_leb (Geo.total r1) (Geo.total r2))
            (filter (λ r, Is_true (geography_filter n region r)) rows))
  | Raise e => Raise e
  end.

(** SELECT fiscal_year, amount FROM homelessness_spending
    WHERE fiscal_year >= lo AND fiscal_year <= hi ORDER BY fiscal_year *)
Definition sql_spending (lo hi : Z) (a : aggregated amount)
    : result (list (Spending.row amount)) :=
  match scan (homelessness_spending a) with
  | Ok rows =>
      Ok (order_by
            (λ r1 r2, asc_leb (Spending.fiscal_year r1) (Spending.fiscal_year r2))
            (filter (λ r, Is_true (sql_ge (Spending.fiscal_year r) lo
                                   && sql_le (Spending.fiscal_year r) hi))
               rows))
  | Raise e => Raise e
  end.

(** *** 1. Filter options *)

(** Python's [sorted] on a list of integers. *)
Definition sorted (l : list Z) : list Z := merge_sort Z.le l.

Definition get_filter_options : M world filter_options :=
  let* con := connect in
  let* ys := execute con sql_distinct_years in
  let years := sorted ys in
  let* regions := try_except (execute con sql_distinct_regions) (ret []) in
  run close con then
  ret {| years := years; regions := regions |}.

(** *** 2. Overview *)

(** Each [py_int] is one [int(...)] of the source, in evaluation order.
    The dictionary [result] is local to the call: its three updates under
    [if prior:] are the comparison fields of the record returned. *)
Definition get_overview (year : option Z) : M world Overview.response :=
  let* con := connect in
  let* year := match year with
               | None =>
                   let* m := execute con sql_max_trend_year in
                   ret m
               | Some y => ret (Some y)
               end in
  let* y := lift (py_int year) in
  let* current := execute con (sql_trend_counts y) in
  let current := fetchone current in
  let* y' := lift (py_int year) in
  let* prior := execute con (sql_trend_total (y' - 1)) in
  let prior := fetchone prior in
  run close con then
  match current with
  | None =>
      ret {| Overview.year := y; Overview.total := 0; Overview.sheltered := 0;
             Overview.unsheltered := 0; Overview.prior_year_total := None;
             Overview.yoy_change := None; Overview.yoy_pct := None |}
  | Some (total, sheltered, unsheltered) =>
      let* r_year := lift (py_int year) in
      let* r_total := lift (py_int total) in
      let* r_sheltered := lift (py_int sheltered) in
      let* r_unsheltered := lift (py_int unsheltered) in
      match prior with
      | Some prior0 =>
          let* prior_total := lift (py_int prior0) in
          let* t := lift (py_int total) in
          let change := t - prior_total in
          let* t' := lift (py_int total) in
          let* ratio := lift (py_truediv (t' - prior_total) prior_total) in
          let pct := py_round1 (PrimFloat.mul ratio (float_of_int 100)) in
          ret {| Overview.year := r_year; Overview.total := r_total;
                 Overview.sheltered := r_sheltered;
                 Overview.unsheltered := r_unsheltered;
                 Overview.prior_year_total := Some prior_total;
                 Overview.yoy_change := Some change;
                 Overview.yoy_pct := Some pct |}
      | None =>
          ret {| Overview.year := r_year; Overview.total := r_total;
                 Overview.sheltered := r_sheltered;
                 Overview.unsheltered := r_unsheltered;
                 Overview.prior_year_total := None;
                 Overview.yoy_change := None;
                 Overview.yoy_pct := None |}
      end
  end.

(** *** 3. PIT trends *)

Definition get_pit_trends (year_min year_max : Z) : M world (list Trend.row) :=
  let w := _where (Some year_min) (Some year_max) in
  _run (sql_trends w).

(** *** 4. Subpopulations *)

(** [safe_group] between quotes is read back as [group]. *)
Definition get_subpopulations (year_min year_max : Z) (group : option string)
    : M world (list Subpop.row) :=
  let w := _where (Some year_min) (Some year_max) in
  let w := match truthy group with
           | Some g => _q w (group_name_eq g)
           | None => w
           end in
  _run (sql_subpopulations w).

(** *** 5. Geography *)

(** [safe_region] between quotes is read back as [region]. *)
Definition get_geography (year : option Z) (region : option string)
    : M world (list Geo.row) :=
  let* con := connect in
  let* year := match year with
               | None =>
                   let* m := execute con sql_max_geography_year in
                   ret m
               | Some y => ret (Some y)
               end in
  let* y := lift (py_int year) in
  let* df := execute con (sql_geography y (truthy region)) in
  run close con then
  ret df.

(** *** 6. Spending trends *)

Definition get_spending_trends (fy_min fy_max : Z)
    : M world (list (Spending.row amount)) :=
  _run (sql_spending fy_min fy_max).

(** The default arguments of the signatures. *)
Definition year_min_default : Z := 2011.
Definition year_max_default : Z := 2024.
Definition fy_min_default : Z := 2021.
Definition fy_max_default : Z := 2026.

End Queries.

Arguments world : clear implicits.

(** * The aggregation builder: [src/pipeline/transform.py] *)

(** A table of the DuckDB database: its column names and its rows.  A row
    maps a column name to the value it holds there; a column without an
    entry is NULL in that row.  Column names are taken as DuckDB compares
    them (already case-normalised). *)
Record table (cell : Type) : Type := {
  columns : list string;
  rows : list (gmap string cell) }.
Arguments columns {cell} _.
Arguments rows {cell} _.

(** One row of the external city-budget dataset
    [dept_budget_trends.parquet]. *)
Module Budget.
Record row (money : Type) : Type := {
  dept_name : option string;
  fiscal_year : option Z;
  amount : option money;
  budget_cycle : option string;
  revenue_or_expense : option string;
  source : option string }.
Arguments dept_name {money} _.
Arguments fiscal_year {money} _.
Arguments amount {money} _.
Arguments budget_cycle {money} _.
Arguments revenue_or_expense {money} _.
Arguments source {money} _.
End Budget.

(** One row of [data/processed/pit_data.parquet]. *)
Module Processed.
Record row : Type := {
  year : option Z;
  total_homeless : option Z;
  sheltered : option Z;
  unsheltered : option Z;
  chronically_homeless : option Z;
  veterans : option Z;
  families_persons : option Z;
  youth_under25 : option Z;
  first_time_homeless : option Z }.
End Processed.

(** What the builder prints. *)
Inductive message : Type :=
| warn_not_found (file : string)          (* [warn] file not found, skipping *)
| loaded (name : string) (count : nat)    (* Loaded name: count rows *)
| exported_processed                      (* Exported processed data -> ... *)
| agg (name : string)                     (* [agg] name *)
| skip_spending                           (* [skip] homelessness_spending ... *)
| transform_complete.                     (* Transform complete. *)

(** [csv_files] of [_load_raw_tables]: table name and file name, in the
    order of the dictionary. *)
Definition csv_files : list (string * string) :=
  [("raw_pit_counts", "pit_counts.csv");
   ("raw_pit_subpopulations", "pit_subpopulations.csv");
   ("raw_pit_geography", "pit_geography.csv")].

(** What the builder takes from DuckDB without this repository saying how
    it is computed. *)
Class Engine (cell amount : Type) : Type := {
  (** [TRY_CAST(c AS INTEGER)] on a value of a raw table: DuckDB's cast,
      NULL when the value does not convert. *)
  try_cast_integer : cell → option Z;
  (** The value of a raw text column that is written through unchanged. *)
  varchar : cell → option string;
  (** [SUM] over the non-NULL amounts of a group, in scan order. *)
  sum_amounts : list amount → amount }.

Section Transform.
Context {cell amount : Type} `{!Engine cell amount}.

(** Everything the builder reads or writes. *)
Record state : Type := {
  raw_dir : gmap string (table cell);       (* data/raw, as read_csv loads it *)
  budget_parquet : option (list (Budget.row amount));
  db : gmap string (table cell);            (* db/homelessness.duckdb *)
  processed_dir : option (list Processed.row);
  aggregated_dir : aggregated amount;       (* data/aggregated *)
  db_connections : nat;                     (* open connections to the db *)
  stdout : list message }.

Definition set_db (f : gmap string (table cell) → gmap string (table cell))
    (s : state) : state :=
  {| raw_dir := raw_dir s; budget_parquet := budget_parquet s;
     db := f (db s); processed_dir := processed_dir s;
     aggregated_dir := aggregated_dir s;
     db_connections := db_connections s; stdout := stdout s |}.

Definition set_processed (p : list Processed.row) (s : state) : state :=
  {| raw_dir := raw_dir s; budget_parquet := budget_parquet s;
     db := db s; processed_dir := Some p;
     aggregated_dir := aggregated_dir s;
     db_connections := db_connections s; stdout := stdout s |}.

Definition set_aggregated (f : aggregated amount → aggregated amount)
    (s : state) : state :=
  {| raw_dir := raw_dir s; budget_parquet := budget_parquet s;
     db := db s; processed_dir := processed_dir s;
     aggregated_dir := f (aggregated_dir s);
     db_connections := db_connections s; stdout := stdout s |}.

Definition set_connections (f : nat → nat) (s : state) : state :=
  {| raw_dir := raw_dir s; budget_parquet := budget_parquet s;
     db := db s; processed_dir := processed_dir s;
     aggregated_dir := aggregated_dir s;
     db_connections := f (db_connections s); stdout := stdout s |}.

(** [print(...)] *)
Definition print (m : message) : M state unit :=
  λ s, (Ok tt,
        {| raw_dir := raw_dir s; budget_parquet := budget_parquet s;
           db := db s; processed_dir := processed_dir s;
           aggregated_dir := aggregated_dir s;
           db_connections := db_connections s; stdout := stdout s ++ [m] |}).

(** Writing one file of [data/aggregated]. *)
Definition write_pit_trends (l : list Trend.row) (a : aggregated amount)
    : aggregated amount :=
  {| pit_trends := Some l; pit_subpopulations := pit_subpopulations a;
     pit_geography := pit_geography a;
     homelessness_spending := homelessness_spending a |}.

Definition write_pit_subpopulations (l : list Subpop.row)
    (a : aggregated amount) : aggregated amount :=
  {| pit_trends := pit_trends a; pit_subpopulations := Some l;
     pit_geography := pit_geography a;
     homelessness_spending := homelessness_spending a |}.

Definition write_pit_geography (l : list Geo.row) (a : aggregated amount)
    : aggregated amount :=
  {| pit_trends := pit_trends a; pit_subpopulations := pit_subpopulations a;
     pit_geography := Some l;
     homelessness_spending := homelessness_spending a |}.

Definition write_homelessness_spending (l : list (Spending.row amount))
    (a : aggregated amount) : aggregated amount :=
  {| pit_trends := pit_trends a; pit_subpopulations := pit_subpopulations a;
     pit_geography := pit_geography a;
     homelessness_spending := Some l |}.

(** *** Statements on the database *)

(** [duckdb.connect(str(db))] and [con.close()] *)
Definition connect_db : M state unit :=
  λ s, (Ok tt, set_connections S s).
Definition close_db : M state unit :=
  λ s, (Ok tt, set_connections Nat.pred s).

(** DROP TABLE IF EXISTS name *)
Definition drop_table_if_exists (name : string) : M state unit :=
  λ s, (Ok tt, set_db (delete name) s).

(** CREATE TABLE name ..., with the given content; an existing table of
    that name is an error. *)
Definition create_table (name : string) (t : table cell) : M state unit :=
  λ s, match db s !! name with
       | Some _ => (Raise CatalogException, s)
       | None => (Ok tt, set_db (insert name t) s)
       end.

(** [read_csv('path', header=true, ignore_errors=true)]: the table DuckDB
    makes of the file. *)
Definition read_csv (file : string) : M state (table cell) :=
  λ s, match raw_dir s !! file with
       | Some t => (Ok t, s)
       | None => (Raise IOException, s)
       end.

(** [path.exists()] for a file of [data/raw]. *)
Definition exists_raw (file : string) : M state bool :=
  λ s, (Ok (bool_decide (is_Some (raw_dir s !! file))), s).

(** FROM name *)
Definition from_table (d : gmap string (table cell)) (name : string)
    : result (table cell) :=
  match d !! name with
  | Some t => Ok t
  | None => Raise CatalogException
  end.

(** SELECT count( * ) FROM name *)
Definition count_rows (name : string) : M state nat :=
  λ s, match from_table (db s) name with
       | Ok t => (Ok (length (rows t)), s)
       | Raise e => (Raise e, s)
       end.

(** Binding the column references of a SELECT against a table. *)
Definition bound (names : list string) (t : table cell) : bool :=
  forallb (λ c, bool_decide (c ∈ columns t)) names.

(** [TRY_CAST(c AS INTEGER)] of column [c] in a row. *)
Definition int_col (r : gmap string cell) (c : string) : option Z :=
  r !! c ≫= try_cast_integer.

(** Column [c] of a row, written through as text. *)
Definition text_col (r : gmap string cell) (c : string) : option string :=
  r !! c ≫= varchar.

(** WHERE TRY_CAST(year AS INTEGER) IS NOT NULL *)
Definition year_casts (r : gmap string cell) : bool :=
  bool_decide (is_Some (int_col r "year")).

(** *** The SELECT of each COPY *)

Definition processed_of (r : gmap string cell) : Processed.row :=
  {| Processed.year := int_col r "year";
     Processed.total_homeless := int_col r "total_homeless";
     Processed.sheltered := int_col r "sheltered";
     Processed.unsheltered := int_col r "unsheltered";
     Processed.chronically_homeless := int_col r "chronically_homeless";
     Processed.veterans := int_col r "veterans";
     Processed.families_persons := int_col r "families_persons";
     Processed.youth_under25 := int_col r "youth_under25";
     Processed.first_time_homeless := int_col r "first_time_homeless" |}.

Definition select_processed (t : table cell) : result (list Processed.row) :=
  if bound ["year"; "total_homeless"; "sheltered"; "unsheltered";
            "chronically_homeless"; "veterans"; "families_persons";
            "youth_under25"; "first_time_homeless"] t
  then Ok (order_by (λ r1 r2, asc_leb (Processed.year r1) (Processed.year r2))
             (map processed_of (filter (λ r, Is_true (year_casts r)) (rows t))))
  else Raise BinderException.

Definition trend_of (r : gmap string cell) : Trend.row :=
  {| Trend.year := int_col r "year";
     Trend.total := int_col r "total_homeless";
     Trend.sheltered := int_col r "sheltered";
     Trend.unsheltered := int_col r "unsheltered" |}.

Definition select_pit_trends (t : table cell) : result (list Trend.row) :=
  if bound ["year"; "total_homeless"; "sheltered"; "unsheltered"] t
  then Ok (order_by (λ r1 r2, asc_leb (Trend.year r1) (Trend.year r2))
             (map trend_of (filter (λ r, Is_true (year_casts r)) (rows t))))
  else Raise BinderException.

Definition subpop_of (r : gmap string cell) : Subpop.row :=
  {| Subpop.year := int_col r "year";
     Subpop.group_name := text_col r "group_name";
     Subpop.count := int_col r "count" |}.

(** WHERE TRY_CAST(year AS INTEGER) IS NOT NULL
      AND TRY_CAST(count AS INTEGER) IS NOT NULL *)
Definition year_and_count_cast (r : gmap string cell) : bool :=
  year_casts r && bool_decide (is_Some (int_col r "count")).

Definition select_pit_subpopulations (t : table cell)
    : result (list Subpop.row) :=
  if bound ["year"; "group_name"; "count"] t
  then Ok (order_by
             (lex_leb
                (λ r1 r2, asc_ltb (Subpop.year r1) (Subpop.year r2))
                (λ r1 r2, asc_leb (Subpop.year r1) (Subpop.year r2))
                (λ r1 r2, text_leb (Subpop.group_name r1) (Subpop.group_name r2)))
             (map subpop_of
                (filter (λ r, Is_true (year_and_count_cast r)) (rows t))))
  else Raise BinderException.

Definition geo_of (r : gmap string cell) : Geo.row :=
  {| Geo.year := int_col r "year";
     Geo.region := text_col r "region";
     Geo.total := int_col r "total";
     Geo.sheltered := int_col r "sheltered";
     Geo.unsheltered := int_col r "unsheltered" |}.

Definition select_pit_geography (t : table cell) : result (list Geo.row) :=
  if bound ["year"; "region"; "total"; "sheltered"; "unsheltered"] t
  then Ok (order_by
             (lex_leb
                (λ r1 r2, asc_ltb (Geo.year r1) (Geo.year r2))
                (λ r1 r2, asc_leb (Geo.year r1) (Geo.year r2))
                (λ r1 r2, text_leb (Geo.region r1) (Geo.region r2)))
             (map geo_of (filter (λ r, Is_true (year_casts r)) (rows t))))
  else Raise BinderException.

(** The WHERE clause of the spending statement. *)
Definition is_homelessness_expense (b : Budget.row amount) : bool :=
  sql_text_eq (Budget.dept_name b) "Homelessness Strategies & Solutions"
  && sql_text_eq (Budget.budget_cycle b) "adopted"
  && sql_text_eq (Budget.revenue_or_expense b) "Expense"
  && sql_text_eq (Budget.source b) "budget".

(** SUM(amount) of one group: NULL when the group has no amount. *)
Definition sum_group (l : list (Budget.row amount)) : option amount :=
  match omap Budget.amount l with
  | [] => None
  | amounts => Some (sum_amounts amounts)
  end.

(** SELECT fiscal_year, SUM(amount) ... GROUP BY fiscal_year
    ORDER BY fiscal_year *)
Definition select_spending (budget : list (Budget.row amount))
    : list (Spending.row amount) :=
  let matching := filter (λ b, Is_true (is_homelessness_expense b)) budget in
  let groups := remove_dups (map Budget.fiscal_year matching) in
  let group_of fy := filter (λ b, Budget.fiscal_year b = fy) matching in
  order_by
    (λ r1 r2, asc_leb (Spending.fiscal_year r1) (Spending.fiscal_year r2))
    (map (λ fy, {| Spending.fiscal_year := fy;
                   Spending.amount := sum_group (group_of fy) |})
         groups).

(** *** The steps of [transform] *)

(** The placeholder made for a missing file: [(dummy INTEGER)], no rows. *)
Definition dummy_table : table cell := {| columns := ["dummy"]; rows := [] |}.

(** One iteration of the loop of [_load_raw_tables]. *)
Definition load_raw_table (entry : string * string) : M state unit :=
  let '(name, file) := entry in
  let* present := exists_raw file in
  if negb present then
    run print (warn_not_found file) then
    run drop_table_if_exists name then
    create_table name dummy_table
  else
    run drop_table_if_exists name then
    let* t := read_csv file in
    run create_table name t then
    let* count := count_rows name in
    print (loaded name count).

Fixpoint for_each {A} (f : A → M state unit) (l : list A) : M state unit :=
  match l with
  | [] => ret tt
  | x :: l' => run f x then for_each f l'
  end.

Definition _load_raw_tables : M state unit :=
  for_each load_raw_table csv_files.

(** [COPY (SELECT ... FROM name) TO file]: nothing is written when the
    statement does not bind. *)
Definition copy_to {A} (name : string)
    (select : table cell → result A) (write : A → state → state)
    : M state unit :=
  λ s, match from_table (db s) name with
       | Ok t => match select t with
                 | Ok out => (Ok tt, write out s)
                 | Raise e => (Raise e, s)
                 end
       | Raise e => (Raise e, s)
       end.

Definition _export_processed : M state unit :=
  run copy_to "raw_pit_counts" select_processed set_processed then
  print exported_processed.

Definition _build_aggregations : M state unit :=
  run copy_to "raw_pit_counts" select_pit_trends
        (λ l, set_aggregated (write_pit_trends l)) then
  run print (agg "pit_trends") then
  run copy_to "raw_pit_subpopulations" select_pit_subpopulations
        (λ l, set_aggregated (write_pit_subpopulations l)) then
  run print (agg "pit_subpopulations") then
  run copy_to "raw_pit_geography" select_pit_geography
        (λ l, set_aggregated (write_pit_geography l)) then
  print (agg "pit_geography").

(** [BUDGET_PARQUET.exists()], with the rows of the file when it does. *)
Definition read_budget : M state (option (list (Budget.row amount))) :=
  λ s, (Ok (budget_parquet s), s).

(** [COPY (SELECT ... FROM budget) TO homelessness_spending.parquet] *)
Definition copy_spending (budget : list (Budget.row amount)) : M state unit :=
  λ s, (Ok tt,
        set_aggregated (write_homelessness_spending (select_spending budget)) s).

Definition _build_spending_crossref : M state unit :=
  let* budget := read_budget in
  match budget with
  | None => print skip_spending
  | Some rows =>
      run copy_spending rows then
      print (agg "homelessness_spending")
  end.

Definition transform : M state unit :=
  run connect_db then
  run _load_raw_tables then
  run _export_processed then
  run _build_aggregations then
  run _build_spending_crossref then
  run close_db then
  print transform_complete.

(** *** Vocabulary for the properties of a run *)

(** The table a run loads for a raw file: what [read_csv] makes of it, or
    the placeholder. *)
Definition table_for (s : state) (file : string) : table cell :=
  default dummy_table (raw_dir s !! file).

(** The database after [_load_raw_tables]. *)
Definition loaded_db (s : state) : gmap string (table cell) :=
  <["raw_pit_geography" := table_for s "pit_geography.csv"]>
    (<["raw_pit_subpopulations" := table_for s "pit_subpopulations.csv"]>
       (<["raw_pit_counts" := table_for s "pit_counts.csv"]> (db s))).

(** What the loop prints for one file. *)
Definition load_message (s : state) (entry : string * string) : list message :=
  match raw_dir s !! entry.2 with
  | Some t => [loaded entry.1 (length (rows t))]
  | None => [warn_not_found entry.2]
  end.

(** How a run ends: with the first statement that does not bind, or
    normally. *)
Definition run_result (s : state) : result unit :=
  match select_processed (table_for s "pit_counts.csv") with
  | Raise e => Raise e
  | Ok _ =>
  match select_pit_trends (table_for s "pit_counts.csv") with
  | Raise e => Raise e
  | Ok _ =>
  match select_pit_subpopulations (table_for s "pit_subpopulations.csv") with
  | Raise e => Raise e
  | Ok _ =>
  match select_pit_geography (table_for s "pit_geography.csv") with
  | Raise e => Raise e
  | Ok _ => Ok tt
  end end end end.

(** The processed file and the aggregated directory a run leaves behind:
    every COPY up to the first failing statement has replaced its file, the
    other files are the ones that were there. *)
Definition files_after_run (s : state)
    : option (list Processed.row) * aggregated amount :=
  match select_processed (table_for s "pit_counts.csv") with
  | Raise _ => (processed_dir s, aggregated_dir s)
  | Ok p =>
  match select_pit_trends (table_for s "pit_counts.csv") with
  | Raise _ => (Some p, aggregated_dir s)
  | Ok tr =>
  let a1 := write_pit_trends tr (aggregated_dir s) in
  match select_pit_subpopulations (table_for s "pit_subpopulations.csv") with
  | Raise _ => (Some p, a1)
  | Ok sp =>
  let a2 := write_pit_subpopulations sp a1 in
  match select_pit_geography (table_for s "pit_geography.csv") with
  | Raise _ => (Some p, a2)
  | Ok g =>
  let a3 := write_pit_geography g a2 in
  match budget_parquet s with
  | None => (Some p, a3)
  | Some budget =>
      (Some p, write_homelessness_spending (select_spending budget) a3)
  end end end end end.

End Transform.

Arguments state : clear implicits.


(** * Verifying the raw data: [src/pipeline/ingest.py] *)

(** What [ingest] prints. *)
Inductive ingest_line : Type :=
| ok_csv (name : string) (size : nat)   (* [ok] name (size bytes) *)
| missing_csv (name : string)           (* [missing] name — create manually *)
| ok_budget (size : nat)                (* [ok] budget cross-reference *)
| warn_budget.                          (* [warn] ... parquet not found *)

(** What the path [data/raw] is on the disk: nothing, a regular file, or a
    directory with the size in bytes of each file in it. *)
Inductive node : Type :=
| absent
| regular_file
| directory (sizes : gmap string nat).

(** The part of the disk [ingest] looks at: the path [RAW_DIR], the size of
    the city-budget file when it exists; and what has been printed.
    Failures of the file system other than [RAW_DIR] being a regular file
    (its parent [data] being one, permissions, a file removed between
    [exists] and [stat]) are not modelled. *)
Record disk : Type := {
  RAW_DIR : node;
  BUDGET_PARQUET : option nat;
  printed : list ingest_line }.

Definition EXPECTED_CSVS : list string :=
  ["pit_counts.csv"; "pit_subpopulations.csv"; "pit_geography.csv"].

(** [RAW_DIR.mkdir(parents=True, exist_ok=True)]: creates the directory
    when nothing is there, leaves a directory as it is, and raises
    [FileExistsError] when the path is a regular file. *)
Definition mkdir_raw : M disk unit :=
  λ d, match RAW_DIR d with
       | absent =>
           (Ok tt, {| RAW_DIR := directory ∅;
                      BUDGET_PARQUET := BUDGET_PARQUET d;
                      printed := printed d |})
       | directory _ => (Ok tt, d)
       | regular_file => (Raise FileExistsError, d)
       end.

Definition say (l : ingest_line) : M disk unit :=
  λ d, (Ok tt,
        {| RAW_DIR := RAW_DIR d; BUDGET_PARQUET := BUDGET_PARQUET d;
           printed := printed d ++ [l] |}).

(** The files of [RAW_DIR] with their sizes: none unless it is a
    directory. *)
Definition raw_files (d : disk) : gmap string nat :=
  match RAW_DIR d with
  | directory sizes => sizes
  | _ => ∅
  end.

(** [path.stat().st_size] for a file of [RAW_DIR] under the guard
    [path.exists()]: [None] when the file does not exist. *)
Definition stat_raw (name : string) : M disk (option nat) :=
  λ d, (Ok (raw_files d !! name), d).

(** The loop of [verify_raw_data], with the list [paths] built so far. *)
Fixpoint verify_each (names : list string) (paths : list string)
    : M disk (list string) :=
  match names with
  | [] => ret paths
  | name :: names' =>
      let* size := stat_raw name in
      match size with
      | Some n =>
          if (0 <? n)%nat then
            run say (ok_csv name n) then
            verify_each names' (paths ++ [name])
          else
            run say (missing_csv name) then
            verify_each names' paths
      | None =>
          run say (missing_csv name) then
          verify_each names' paths
      end
  end.

Definition verify_raw_data : M disk (list string) :=
  run mkdir_raw then
  verify_each EXPECTED_CSVS [].

Definition check_budget_crossref : M disk bool :=
  λ d, match BUDGET_PARQUET d with
       | Some size => bind (say (ok_budget size)) (λ _, ret true) d
       | None => bind (say warn_budget) (λ _, ret false) d
       end.

(** [ingest(force=...)]: the flag is not used by the body. *)
Definition ingest (force : bool) : M disk (list string) :=
  run mkdir_raw then
  let* paths := verify_raw_data in
  let* _ := check_budget_crossref in
  ret paths.

(** A raw file that exists and is not empty. *)
Definition usable (d : disk) (name : string) : bool :=
  match raw_files d !! name with
  | Some n => (0 <? n)%nat
  | None => false
  end.

(** A disk with a full count file, an empty subgroup file and no
    geography file. *)
Definition partial_disk : disk :=
  {| RAW_DIR := directory (<["pit_counts.csv" := 2048%nat]>
                             (<["pit_subpopulations.csv" := 0%nat]> ∅));
     BUDGET_PARQUET := None;
     printed := [] |}.

(** A checkout in which [data/raw] was committed as a regular file. *)
Definition raw_is_a_file : disk :=
  {| RAW_DIR := regular_file; BUDGET_PARQUET := Some 4096%nat;
     printed := [] |}.

(** * Vocabulary of the properties *)

(** The trend record an overview takes for a year: the first row of the
    file whose [year] equals it. *)
Definition trend_record (rows : list Trend.row) (y : Z) : option Trend.row :=
  head (filter (λ r, Is_true (sql_eq (Trend.year r) y)) rows).

(** State after a query that opened a connection and closed it. *)
Definition released {amount} (w : world amount) : world amount :=
  {| files := files w; opened := S (opened w); closed := S (closed w) |}.

(** State after a query that opened a connection and left it open. *)
Definition leaked {amount} (w : world amount) : world amount :=
  {| files := files w; opened := S (opened w); closed := closed w |}.

(** DuckDB's INTEGER: a 32-bit signed value, what the builder casts every
    count to. *)
Definition INTEGER (n : Z) : Prop := - 2 ^ 31 ≤ n < 2 ^ 31.

(** A nullable INTEGER column holds NULL or a 32-bit value. *)
Definition integer_or_null (x : option Z) : Prop :=
  ∀ n, x = Some n → INTEGER n.

(** A row of a trend file whose four columns are INTEGER, as the builder
    writes them. *)
Definition INTEGER_columns (r : Trend.row) : Prop :=
  integer_or_null (Trend.year r) ∧ integer_or_null (Trend.total r)
  ∧ integer_or_null (Trend.sheltered r)
  ∧ integer_or_null (Trend.unsheltered r).

(** The WHERE clause of [get_subpopulations] on one row: the year within
    the range and, when a non-empty group is given, that group name. *)
Definition subpopulation_filter (lo hi : Z) (group : option string)
    (r : Subpop.row) : bool :=
  sql_ge (Subpop.year r) lo && sql_le (Subpop.year r) hi
  && match truthy group with
     | Some g => sql_text_eq (Subpop.group_name r) g
     | None => true
     end.

(** The percentage the overview reports for totals [t] and [p]:
    [round((t - p) / p * 100, 1)]. *)
Definition pct_change (t p : Z) : float :=
  py_round1
    (PrimFloat.mul (PrimFloat.div (float_of_int (t - p)) (float_of_int p))
                   (float_of_int 100)).

(** The six operations of the query layer, with their arguments. *)
Inductive operation : Type :=
| filter_options_op
| overview_op (year : option Z)
| pit_trends_op (year_min year_max : Z)
| subpopulations_op (year_min year_max : Z) (group : option string)
| geography_op (year : option Z) (region : option string)
| spending_trends_op (fy_min fy_max : Z).

(** How a call ended, without its value: [None] for a normal return, the
    exception otherwise; and the state it left. *)
Definition outcome {S A} (m : M S A) (s : S) : option exn * S :=
  match m s with
  | (Ok _, s') => (None, s')
  | (Raise e, s') => (Some e, s')
  end.

Definition perform {amount} (op : operation) (w : world amount)
    : option exn * world amount :=
  match op with
  | filter_options_op => outcome get_filter_options w
  | overview_op year => outcome (get_overview year) w
  | pit_trends_op lo hi => outcome (get_pit_trends lo hi) w
  | subpopulations_op lo hi g => outcome (get_subpopulations lo hi g) w
  | geography_op year region => outcome (get_geography year region) w
  | spending_trends_op lo hi => outcome (get_spending_trends lo hi) w
  end.

(** The datasets an operation reads. *)
Definition reads_trends (op : operation) : bool :=
  match op with
  | filter_options_op | overview_op _ | pit_trends_op _ _ => true
  | _ => false
  end.

(** [fiscal_year] within the inclusive range. *)
Definition in_fiscal_range {amount} (lo hi : Z) (r : Spending.row amount)
    : Prop :=
  ∃ fy, Spending.fiscal_year r = Some fy ∧ lo ≤ fy ≤ hi.

(** ** Concrete inputs *)

Definition trend (y t s u : Z) : Trend.row :=
  {| Trend.year := Some y; Trend.total := Some t;
     Trend.sheltered := Some s; Trend.unsheltered := Some u |}.

(** A serving process whose [data/aggregated] directory holds the given
    files and which has not opened a connection yet. *)
Definition serving (a : aggregated Z) : world Z :=
  {| files := a; opened := 0; closed := 0 |}.

Definition trends_2023_2024 : list Trend.row :=
  [trend 2023 10264 5093 5171; trend 2024 10605 4495 6110].

Definition only_trends (rows : list Trend.row) : aggregated Z :=
  {| pit_trends := Some rows; pit_subpopulations := None;
     pit_geography := None; homelessness_spending := None |}.

(** A directory in which no derived file was ever written. *)
Definition no_files : aggregated Z :=
  {| pit_trends := None; pit_subpopulations := None;
     pit_geography := None; homelessness_spending := None |}.

Definition geo (y : Z) (region : string) (t s u : Z) : Geo.row :=
  {| Geo.year := Some y; Geo.region := Some region; Geo.total := Some t;
     Geo.sheltered := Some s; Geo.unsheltered := Some u |}.

Definition geography_2024 : list Geo.row :=
  [geo 2023 "North County" 900 400 500;
   geo 2024 "East County" 1200 500 700;
   geo 2024 "City of San Diego" 6800 3000 3800].

(** Trend and geography files written, no spending file. *)
Definition without_spending : aggregated Z :=
  {| pit_trends := Some trends_2023_2024; pit_subpopulations := Some [];
     pit_geography := Some geography_2024; homelessness_spending := None |}.

(** Every file but the geography file. *)
Definition without_geography : aggregated Z :=
  {| pit_trends := Some trends_2023_2024; pit_subpopulations := Some [];
     pit_geography := None;
     homelessness_spending :=
       Some [{| Spending.fiscal_year := Some 2022;
                Spending.amount := Some 100 |}] |}.

(** A trend file in which the year before 2024 has a total of zero. *)
Definition trends_zero_prior : list Trend.row :=
  [trend 2023 0 0 0; trend 2024 5 2 3].

(** A trend file in which the record of 2023 has no sheltered count, as
    the builder writes it for the row [counts_2023] below. *)
Definition trends_null_sheltered : list Trend.row :=
  [trend 2022 8427 4321 4106;
   {| Trend.year := Some 2023; Trend.total := Some 10264;
      Trend.sheltered := None; Trend.unsheltered := Some 5171 |}].

(** *** Concrete inputs of the builder: text cells, plain decimal numerals *)

Fixpoint decimal (s : string) (acc : Z) : option Z :=
  match s with
  | EmptyString => Some acc
  | String c s' =>
      match Ascii.is_nat c with
      | Some d => decimal s' (10 * acc + Z.of_nat d)
      | None => None
      end
  end.

(** The cast on the cells of the concrete inputs: a plain decimal numeral,
    with an optional minus sign, within the 32-bit range; these DuckDB
    converts to that integer.  Text that is not such a numeral does not
    occur in a cell that is expected to cast. *)
Definition numeral (s : string) : option Z :=
  let parsed := match s with
                | EmptyString => None
                | String c s' =>
                    if bool_decide (String c EmptyString = "-") then
                      match s' with
                      | EmptyString => None
                      | _ => Z.opp <$> decimal s' 0
                      end
                    else decimal s 0
                end in
  match parsed with
  | Some n => if bool_decide (INTEGER n) then Some n else None
  | None => None
  end.

Definition text_row (cells : list (string * string)) : gmap string string :=
  list_to_map cells.

(** The rows of [pit_counts.csv]: a complete one, one whose sheltered
    count is not a number, one whose year is not a number. *)
Definition counts_2024 : gmap string string :=
  text_row [("year", "2024"); ("total_homeless", "10605");
            ("sheltered", "4495"); ("unsheltered", "6110");
            ("veterans", "865")].
Definition counts_2023 : gmap string string :=
  text_row [("year", "2023"); ("total_homeless", "10264");
            ("sheltered", "n/a"); ("unsheltered", "5171")].
Definition counts_tbd : gmap string string :=
  text_row [("year", "TBD"); ("total_homeless", "1")].

Definition pit_counts_csv : table string :=
  {| columns := ["year"; "total_homeless"; "sheltered"; "unsheltered";
                 "chronically_homeless"; "veterans"; "families_persons";
                 "youth_under25"; "first_time_homeless"];
     rows := [counts_2024; counts_2023; counts_tbd] |}.

(** A subgroup row with a year and no usable count. *)
Definition families_2024 : gmap string string :=
  text_row [("year", "2024"); ("group_name", "Families"); ("count", "n/a")].

Definition pit_subpopulations_csv : table string :=
  {| columns := ["year"; "group_name"; "count"];
     rows := [text_row [("year", "2024"); ("group_name", "Veterans");
                        ("count", "865")];
              families_2024] |}.

Definition pit_geography_csv : table string :=
  {| columns := ["year"; "region"; "total"; "sheltered"; "unsheltered"];
     rows := [text_row [("year", "2024"); ("region", "East County");
                        ("total", "1200"); ("sheltered", "500");
                        ("unsheltered", "700")]] |}.

(** A subgroup table whose only row is [families_2024]. *)
Definition subpopulations_without_count : table string :=
  {| columns := ["year"; "group_name"; "count"]; rows := [families_2024] |}.

Definition fresh (raw : gmap string (table string)) : state string Z :=
  {| raw_dir := raw; budget_parquet := None; db := ∅;
     processed_dir := None; aggregated_dir := no_files;
     db_connections := 0; stdout := [] |}.

(** All three raw files present. *)
Definition all_sources : state string Z :=
  fresh (<["pit_counts.csv" := pit_counts_csv]>
           (<["pit_subpopulations.csv" := pit_subpopulations_csv]>
              (<["pit_geography.csv" := pit_geography_csv]> ∅))).

(** The geography file is missing. *)
Definition no_geography_source : state string Z :=
  fresh (<["pit_counts.csv" := pit_counts_csv]>
           (<["pit_subpopulations.csv" := pit_subpopulations_csv]> ∅)).

Definition sum_Z (l : list Z) : Z := foldr Z.add 0 l.

(** The engine on text cells and integer amounts. *)
Global Instance text_engine : Engine string Z :=
  {| try_cast_integer := numeral; varchar := Some; sum_amounts := sum_Z |}.

(** The serving process that starts on what a first run of the builder
    left, all three raw files present and no city-budget dataset. *)
Definition serving_after_first_run : world Z :=
  serving (aggregated_dir (transform all_sources).2).

(** *** Further concrete inputs *)

Definition subpopulations_2024 : list Subpop.row :=
  [{| Subpop.year := Some 2024; Subpop.group_name := Some "Veterans";
      Subpop.count := Some 865 |};
   {| Subpop.year := Some 2024; Subpop.group_name := Some "Families";
      Subpop.count := Some 1500 |};
   {| Subpop.year := Some 2023; Subpop.group_name := Some "Veterans";
      Subpop.count := Some 814 |}].

(** Trend, subgroup and geography files written, no spending file. *)
Definition with_subpopulations : aggregated Z :=
  {| pit_trends := Some trends_2023_2024;
     pit_subpopulations := Some subpopulations_2024;
     pit_geography := Some geography_2024; homelessness_spending := None |}.

(** Trend and geography files that hold no record. *)
Definition empty_datasets : aggregated Z :=
  {| pit_trends := Some []; pit_subpopulations := Some [];
     pit_geography := Some []; homelessness_spending := None |}.

Definition budget_row (dept : string) (fy : Z) (amt : Z) (kind : string)
    : Budget.row Z :=
  {| Budget.dept_name := Some dept; Budget.fiscal_year := Some fy;
     Budget.amount := Some amt; Budget.budget_cycle := Some "adopted";
     Budget.revenue_or_expense := Some kind; Budget.source := Some "budget" |}.

(** Rows of the city-budget dataset: two expenses and one revenue of the
    homelessness department, one expense of another department. *)
Definition dept_budget_trends : list (Budget.row Z) :=
  [budget_row "Homelessness Strategies & Solutions" 2022 100 "Expense";
   budget_row "Homelessness Strategies & Solutions" 2022 250 "Expense";
   budget_row "Homelessness Strategies & Solutions" 2022 40 "Revenue";
   budget_row "Library" 2023 75 "Expense"].

(** A table of the database that is none of the raw tables. *)
Definition notes_table : table string :=
  {| columns := ["note"]; rows := [text_row [("note", "kept")]] |}.

(** All three raw files present, on a database that already holds a stale
    raw count table and another table. *)
Definition all_sources_on_used_db : state string Z :=
  {| raw_dir := raw_dir all_sources;
     budget_parquet := None;
     db := <["notes" := notes_table]>
             (<["raw_pit_counts" := subpopulations_without_count]> ∅);
     processed_dir := None; aggregated_dir := no_files;
     db_connections := 0; stdout := [] |}.

(** All three raw files and the city-budget dataset present. *)
Definition all_sources_and_budget : state string Z :=
  {| raw_dir := raw_dir all_sources;
     budget_parquet := Some dept_budget_trends;
     db := ∅; processed_dir := None; aggregated_dir := no_files;
     db_connections := 0; stdout := [] |}.

(** * Properties of the query layer *)

Section QueryFacts.
Context {amount : Type}.
Implicit Types (w : world amount) (rows : list Trend.row).

Lemma fetchone_map {A B} (f : A → B) (l : list A) :
  fetchone (map f l) = f <$> head l.
Proof. by destruct l. Qed.

Lemma trend_record_absent rows y :
  Forall (λ r, Trend.year r ≠ Some y) rows → trend_record rows y = None.
Proof.
  unfold trend_record. induction 1 as [|r rows Hr _ IH]; [done|].
  rewrite filter_cons. destruct (decide _) as [Heq|]; [|done].
  exfalso. apply Hr. unfold sql_eq in Heq.
  destruct (Trend.year r) as [a|]; [|done].
  apply Is_true_true, Z.eqb_eq in Heq. by subst.
Qed.

(** [get_overview] with an explicit year, when the trend file exists, in
    terms of the two records it fetches. *)
Lemma get_overview_explicit w rows y :
  pit_trends (files w) = Some rows →
  get_overview (Some y) w =
    (match trend_record rows y with
     | None =>
         ret {| Overview.year := y;
                Overview.total := 0;
                Overview.sheltered := 0;
                Overview.unsheltered := 0;
                Overview.prior_year_total := None;
                Overview.yoy_change := None;
                Overview.yoy_pct := None |}
     | Some cur =>
         let* r_total := lift (py_int (Trend.total cur)) in
         let* r_sheltered := lift (py_int (Trend.sheltered cur)) in
         let* r_unsheltered := lift (py_int (Trend.unsheltered cur)) in
         match trend_record rows (y - 1) with
         | Some prior =>
             let* prior_total := lift (py_int (Trend.total prior)) in
             let* ratio :=
               lift (py_truediv (r_total - prior_total) prior_total) in
             ret {| Overview.year := y;
                    Overview.total := r_total;
                    Overview.sheltered := r_sheltered;
                    Overview.unsheltered := r_unsheltered;
                    Overview.prior_year_total := Some prior_total;
                    Overview.yoy_change := Some (r_total - prior_total);
                    Overview.yoy_pct :=
                      Some (py_round1
                              (PrimFloat.mul ratio (float_of_int 100))) |}
         | None =>
             ret {| Overview.year := y;
                    Overview.total := r_total;
                    Overview.sheltered := r_sheltered;
                    Overview.unsheltered := r_unsheltered;
                    Overview.prior_year_total := None;
                    Overview.yoy_change := None;
                    Overview.yoy_pct := None |}
         end
     end) (released w).
Proof.
  intros Htr.
  unfold get_overview, bind, connect, execute, close, lift, ret. simpl.
  unfold sql_trend_counts, sql_trend_total. simpl. rewrite Htr. simpl.
  rewrite !fetchone_map. fold (trend_record rows y).
  fold (trend_record rows (y - 1)).
  destruct (trend_record rows y) as [cur|]; simpl; [|done].
  destruct (Trend.total cur) as [t|]; simpl; [|done].
  destruct (Trend.sheltered cur) as [s|]; simpl; [|done].
  destruct (Trend.unsheltered cur) as [u|]; simpl; [|done].
  destruct (trend_record rows (y - 1)) as [prior|]; simpl; [|done].
  destruct (Trend.total prior) as [p|]; simpl; [|done].
  destruct (py_truediv (t - p) p); done.
Qed.


(** C2, amended. For a year [y] of the INTEGER range: when the trend
    dataset holds a record for [y] whose total [T], sheltered and
    unsheltered counts are not null, and a record for [y - 1] whose total
    [Tp] is not null and not zero, [get_overview y] returns those counts
    with [yoy_change = T - Tp] and
    [yoy_pct = round((T - Tp) / Tp * 100, 1)]; when it holds such a record
    for [y] and none for [y - 1], the three comparison fields are null. *)
Theorem get_overview_yoy w rows y cur T s u :
  pit_trends (files w) = Some rows →
  INTEGER y →
  trend_record rows y = Some cur →
  Trend.total cur = Some T →
  Trend.sheltered cur = Some s →
  Trend.unsheltered cur = Some u →
  INTEGER T →
  (∀ prior Tp,
      trend_record rows (y - 1) = Some prior →
      Trend.total prior = Some Tp →
      INTEGER Tp → Tp ≠ 0 →
      ∃ r, fst (get_overview (Some y) w) = Ok r
           ∧ Overview.total r = T
           ∧ Overview.sheltered r = s
           ∧ Overview.unsheltered r = u
           ∧ Overview.prior_year_total r = Some Tp
           ∧ Overview.yoy_change r = Some (T - Tp)
           ∧ Overview.yoy_pct r = Some (pct_change T Tp))
  ∧ (Forall (λ r, Trend.year r ≠ Some (y - 1)) rows →
      ∃ r, fst (get_overview (Some y) w) = Ok r
           ∧ Overview.total r = T
           ∧ Overview.sheltered r = s
           ∧ Overview.unsheltered r = u
           ∧ Overview.prior_year_total r = None
           ∧ Overview.yoy_change r = None
           ∧ Overview.yoy_pct r = None).
Proof.
  intros Htr _ Hcur HT Hs Hu _. split.
  - intros prior Tp Hprior HTp _ Hnz.
    rewrite (get_overview_explicit w rows y Htr), Hcur, Hprior, HT, Hs, Hu,
      HTp.
    unfold bind, lift, ret, py_truediv; simpl.
    destruct (Z.eqb_spec Tp 0) as [|_]; [done|]. simpl. eauto 10.
  - intros Hno.
    rewrite (get_overview_explicit w rows y Htr), Hcur, HT, Hs, Hu.
    rewrite (trend_record_absent rows (y - 1) Hno).
    unfold bind, lift, ret; simpl. eauto 10.
Qed.

(** C10, amended. The percentage is an unguarded division by the prior
    year's total, behind conversions that do not accept a null.  For a
    year [y] of the INTEGER range with records for [y] and [y - 1]: when
    the counts read from them (total, sheltered and unsheltered of [y],
    total of [y - 1]) are not null, [get_overview y] succeeds exactly when
    the prior total is not zero, and a prior total of zero makes it raise
    [ZeroDivisionError]; when one of those counts is null it raises
    [TypeError], whatever the prior total. *)
Theorem get_overview_division_unguarded w rows y cur prior :
  pit_trends (files w) = Some rows →
  INTEGER y →
  trend_record rows y = Some cur →
  trend_record rows (y - 1) = Some prior →
  (∀ T s u Tp,
      Trend.total cur = Some T →
      Trend.sheltered cur = Some s →
      Trend.unsheltered cur = Some u →
      Trend.total prior = Some Tp →
      INTEGER T → INTEGER Tp →
      (is_ok (fst (get_overview (Some y) w)) = true ↔ Tp ≠ 0)
      ∧ (Tp = 0 → fst (get_overview (Some y) w) = Raise ZeroDivisionError))
  ∧ (Trend.total cur = None ∨ Trend.sheltered cur = None
     ∨ Trend.unsheltered cur = None ∨ Trend.total prior = None →
     fst (get_overview (Some y) w) = Raise TypeError).
Proof.
  intros Htr _ Hcur Hprior.
  rewrite (get_overview_explicit w rows y Htr), Hcur, Hprior. split.
  - intros T s u Tp -> -> -> -> _ _.
    unfold bind, lift, ret, py_truediv; simpl.
    destruct (Z.eqb_spec Tp 0) as [->|Hnz]; simpl.
    + split; [split; [discriminate | done] | done].
    + split; [done | by intros ->].
  - unfold bind, lift, ret, py_truediv; simpl.
    destruct (Trend.total cur) as [T|], (Trend.sheltered cur) as [s|],
      (Trend.unsheltered cur) as [u|], (Trend.total prior) as [Tp|];
      simpl; try done; by intros [?|[?|[?|?]]].
Qed.

(** ** Connections *)

Lemma _run_spec {A} (sql : aggregated amount → result (list A)) w :
  _run sql w = match sql (files w) with
               | Ok df => (Ok df, released w)
               | Raise e => (Raise e, leaked w)
               end.
Proof.
  unfold _run, bind, connect, execute, close, ret. simpl.
  by destruct (sql (files w)).
Qed.

Ltac unfold_query :=
  unfold perform, outcome, get_filter_options, get_overview, get_pit_trends,
    get_subpopulations, get_geography, get_spending_trends;
  rewrite ?_run_spec;
  unfold bind, try_except, connect, execute, close, lift, ret,
    sql_distinct_years, sql_distinct_regions, sql_max_trend_year,
    sql_trend_counts, sql_trend_total, sql_trends, sql_subpopulations,
    sql_max_geography_year, sql_geography, sql_spending, scan, py_int,
    py_truediv, released, leaked;
  simpl.

(** C8, amended. Every operation opens exactly one connection and changes
    no file; it has closed that connection whenever it returns normally;
    when a read raises DuckDB's error for a missing file, the exception
    leaves the operation with the connection still open. *)
Theorem connection_discipline (op : operation) w :
  files (perform op w).2 = files w
  ∧ opened (perform op w).2 = S (opened w)
  ∧ ((perform op w).1 = None → closed (perform op w).2 = S (closed w))
  ∧ ((perform op w).1 = Some IOException →
     closed (perform op w).2 = closed w).
Proof.
  destruct op; unfold_query;
    repeat (case_match; simplify_eq/=); repeat split; congruence.
Qed.

(** ** Missing datasets *)

(** C1, amended. When only the geography file is missing,
    [get_filter_options] returns the years with an empty list of regions
    and does not raise.  An operation that reads the trend file raises
    DuckDB's error when that file is missing, and so does
    [get_subpopulations] when the subpopulation file is missing: neither
    returns an empty collection or a sentinel. *)
Theorem missing_dataset_policy w :
  (∀ rows,
      pit_trends (files w) = Some rows → pit_geography (files w) = None →
      get_filter_options w =
        (Ok {| years := sorted (merge_sort Z.le
                                  (remove_dups (omap Trend.year rows)));
               regions := [] |},
         released w))
  ∧ (pit_trends (files w) = None →
     ∀ op, reads_trends op = true → (perform op w).1 = Some IOException)
  ∧ (pit_subpopulations (files w) = None →
     ∀ lo hi g, (perform (subpopulations_op lo hi g) w).1 = Some IOException).
Proof.
  split; [|split].
  - intros rows Htr Hgeo. unfold_query. by rewrite Htr, Hgeo.
  - intros Htr op Hop. destruct op; try discriminate Hop; unfold_query;
      rewrite ?Htr; simpl; repeat (case_match; simplify_eq/=); done.
  - intros Hsp lo hi g. unfold_query. by rewrite Hsp.
Qed.

(** ** Ordering of results *)

Lemma order_by_Permutation {A} (leb : A → A → bool) (l : list A) :
  order_by leb l ≡ₚ l.
Proof. apply merge_sort_Permutation. Qed.

Lemma order_by_sorted {A} (leb : A → A → bool) (l : list A) :
  Transitive (rel_of leb) → Total (rel_of leb) →
  StronglySorted (rel_of leb) (order_by leb l).
Proof. intros. by apply StronglySorted_merge_sort. Qed.

Lemma asc_key_transitive {A} (k : A → option Z) :
  Transitive (rel_of (λ a b, asc_leb (k a) (k b))).
Proof.
  intros a b c. unfold rel_of, asc_leb.
  destruct (k a), (k b), (k c); simpl; try done.
  rewrite !Is_true_true, !Z.leb_le. lia.
Qed.

Lemma asc_key_total {A} (k : A → option Z) :
  Total (rel_of (λ a b, asc_leb (k a) (k b))).
Proof.
  intros a b. unfold rel_of, asc_leb.
  destruct (k a) as [x|], (k b) as [y|]; simpl; auto.
  rewrite !Is_true_true, !Z.leb_le. lia.
Qed.

Lemma desc_key_transitive {A} (k : A → option Z) :
  Transitive (rel_of (λ a b, desc_leb (k a) (k b))).
Proof.
  intros a b c. unfold rel_of, desc_leb.
  destruct (k a), (k b), (k c); simpl; try done.
  rewrite !Is_true_true, !Z.leb_le. lia.
Qed.

Lemma desc_key_total {A} (k : A → option Z) :
  Total (rel_of (λ a b, desc_leb (k a) (k b))).
Proof.
  intros a b. unfold rel_of, desc_leb.
  destruct (k a) as [x|], (k b) as [y|]; simpl; auto.
  rewrite !Is_true_true, !Z.leb_le. lia.
Qed.

(** ** Spending *)

Lemma in_fiscal_range_filter lo hi (r : Spending.row amount) :
  Is_true (sql_ge (Spending.fiscal_year r) lo
           && sql_le (Spending.fiscal_year r) hi)
  ↔ in_fiscal_range lo hi r.
Proof.
  unfold in_fiscal_range, sql_ge, sql_le.
  destruct (Spending.fiscal_year r) as [fy|]; simpl.
  - rewrite andb_True, !Is_true_true, !Z.leb_le. split.
    + intros [? ?]. exists fy. split; [done | lia].
    + intros (fy' & [= <-] & ?). lia.
  - split; [done | by intros (? & ? & _)].
Qed.

(** When the spending file exists, [get_spending_trends] returns exactly
    its records within the inclusive range, in ascending order of fiscal
    year, and closes its connection. *)
Lemma get_spending_trends_in_range w (spending : list (Spending.row amount))
    lo hi :
  homelessness_spending (files w) = Some spending →
  ∃ out,
    get_spending_trends lo hi w = (Ok out, released w)
    ∧ out ≡ₚ filter (λ r, Is_true (sql_ge (Spending.fiscal_year r) lo
                                    && sql_le (Spending.fiscal_year r) hi))
               spending
    ∧ (∀ r, r ∈ out ↔ r ∈ spending ∧ in_fiscal_range lo hi r)
    ∧ StronglySorted
        (rel_of (λ r1 r2, asc_leb (Spending.fiscal_year r1)
                                  (Spending.fiscal_year r2))) out.
Proof.
  intros Hsp. unfold_query. rewrite Hsp. eexists. split; [done|].
  split; [by rewrite order_by_Permutation|]. split.
  - intros r. rewrite order_by_Permutation, list_elem_of_filter.
    rewrite in_fiscal_range_filter. tauto.
  - apply order_by_sorted; [apply asc_key_transitive | apply asc_key_total].
Qed.

(** When the spending file does not exist, [get_spending_trends] does not
    return an empty collection: DuckDB's error for the missing file
    propagates, and the connection is left open. *)
Lemma get_spending_trends_missing_file w lo hi :
  homelessness_spending (files w) = None →
  get_spending_trends lo hi w = (Raise IOException, leaked w).
Proof. intros Hsp. unfold_query. by rewrite Hsp. Qed.

(** ** Geography *)

Lemma sql_max_spec (keys : list (option Z)) m :
  sql_max keys = Some m →
  Some m ∈ keys ∧ ∀ k, Some k ∈ keys → k ≤ m.
Proof.
  revert m. induction keys as [|k keys IH]; intros m; simpl; [done|].
  destruct k as [a|].
  - destruct (sql_max keys) as [b|] eqn:Hmax.
    + intros [= <-]. destruct (IH b eq_refl) as [Hin Hle]. split.
      * destruct (Z.max_spec a b) as [[_ ->]|[_ ->]];
          [by right | by left].
      * intros k [[= ->]|Hk]%elem_of_cons; [lia|].
        specialize (Hle k Hk). lia.
    + intros [= <-]. split; [by left|].
      intros k [[= ->]|Hk]%elem_of_cons; [lia|].
      exfalso. clear IH. induction keys as [|[c|] keys IH']; simpl in *.
      * by apply elem_of_nil in Hk.
      * by destruct (sql_max keys).
      * apply elem_of_cons in Hk as [?|?]; [done | auto].
  - intros Hm. destruct (IH m Hm) as [Hin Hle]. split; [by right|].
    intros k [?|Hk]%elem_of_cons; [done | auto].
Qed.

(** With no year given, [get_geography] works on the largest year of the
    geography file. *)
Lemma get_geography_default_year w (geography : list Geo.row) m region :
  pit_geography (files w) = Some geography →
  sql_max (map Geo.year geography) = Some m →
  get_geography None region w = get_geography (Some m) region w.
Proof.
  intros Hgeo Hmax. unfold_query. rewrite Hgeo. simpl. rewrite Hmax. simpl.
  by rewrite Hgeo.
Qed.

(** When the geography file exists, [get_geography] for a year returns
    exactly the records of that year (and of the region, when a non-empty
    one is given), by descending total. *)
Lemma get_geography_for_year w (geography : list Geo.row) y region :
  pit_geography (files w) = Some geography →
  ∃ out,
    get_geography (Some y) region w = (Ok out, released w)
    ∧ out ≡ₚ filter (λ r, Is_true (geography_filter y (truthy region) r))
               geography
    ∧ StronglySorted
        (rel_of (λ r1 r2, desc_leb (Geo.total r1) (Geo.total r2))) out.
Proof.
  intros Hgeo. unfold_query. rewrite Hgeo. eexists. split; [done|].
  split; [by rewrite order_by_Permutation|].
  apply order_by_sorted; [apply desc_key_transitive | apply desc_key_total].
Qed.

Lemma geography_filter_region y r (g : Geo.row) :
  r ≠ "" →
  Is_true (geography_filter y (truthy (Some r)) g) →
  Geo.year g = Some y ∧ Geo.region g = Some r.
Proof.
  intros Hr. unfold geography_filter, truthy.
  destruct r as [|c r]; [done|]. rewrite andb_True.
  unfold sql_eq, sql_text_eq.
  destruct (Geo.year g) as [a|], (Geo.region g) as [b|]; simpl;
    try tauto.
  rewrite Is_true_true, Z.eqb_eq, bool_decide_spec. by intros [-> ->].
Qed.

Lemma geography_filter_no_rows (geography : list Geo.row) y region :
  Forall (λ r, Geo.year r ≠ Some y) geography →
  filter (λ r, Is_true (geography_filter y region r)) geography = [].
Proof.
  induction 1 as [|g l Hg _ IH]; [done|].
  rewrite filter_cons. destruct (decide _) as [Hf|]; [|exact IH].
  exfalso. apply Hg. unfold geography_filter in Hf.
  apply andb_True in Hf as [Hy _]. unfold sql_eq in Hy.
  destruct (Geo.year g); [|done].
  apply Is_true_true, Z.eqb_eq in Hy. by subst.
Qed.

(** A year without rows yields the empty collection. *)
Lemma get_geography_no_rows w (geography : list Geo.row) y region :
  pit_geography (files w) = Some geography →
  Forall (λ r, Geo.year r ≠ Some y) geography →
  get_geography (Some y) region w = (Ok [], released w).
Proof.
  intros Hgeo Hno. unfold_query. rewrite Hgeo.
  by rewrite (geography_filter_no_rows geography y _ Hno).
Qed.

(** C7, where the code departs from it. When the geography file is absent,
    [get_geography] does not return an empty collection: with or without a
    year, DuckDB's error for the missing file propagates. *)
Theorem get_geography_missing_file w year region :
  pit_geography (files w) = None →
  get_geography year region w = (Raise IOException, leaked w).
Proof. intros Hgeo. destruct year; unfold_query; by rewrite Hgeo. Qed.

End QueryFacts.


Lemma get_overview_yoy_witness :
  ∃ r, fst (get_overview (Some 2024) (serving (only_trends trends_2023_2024)))
         = Ok r
       ∧ Overview.total r = 10605
       ∧ Overview.sheltered r = 4495
       ∧ Overview.unsheltered r = 6110
       ∧ Overview.prior_year_total r = Some 10264
       ∧ Overview.yoy_change r = Some (10605 - 10264)
       ∧ Overview.yoy_pct r = Some (pct_change 10605 10264).
Proof.
  destruct (get_overview_yoy (serving (only_trends trends_2023_2024))
              trends_2023_2024 2024 (trend 2024 10605 4495 6110)
              10605 4495 6110) as [H _];
    [reflexivity | unfold INTEGER; lia | reflexivity | reflexivity
     | reflexivity | reflexivity | unfold INTEGER; lia |].
  apply (H (trend 2023 10264 5093 5171) 10264);
    [reflexivity | reflexivity | unfold INTEGER; lia | lia].
Defined.

(** The reported percentage for 10264 people in 2023 and 10605 in 2024 is
    the double nearest to 3.3. *)
Example pct_change_2024 :
  pct_change 10605 10264 = PrimFloat.div (float_of_int 33) (float_of_int 10).
Proof. reflexivity. Qed.

(** C2 as stated fails when the prior total is zero: records for 2023 and
    2024 exist, and the overview of 2024 raises instead of returning a
    year-over-year change.  It fails as well when a count of the current
    record is null: records for 2022 and 2023 exist with totals 8427 and
    10264, and the overview of 2023 raises. *)
Lemma get_overview_yoy_not_returned :
  (trend_record trends_zero_prior 2024 = Some (trend 2024 5 2 3)
   ∧ trend_record trends_zero_prior 2023 = Some (trend 2023 0 0 0)
   ∧ fst (get_overview (Some 2024) (serving (only_trends trends_zero_prior)))
       = Raise ZeroDivisionError
   ∧ ¬ ∃ r, fst (get_overview (Some 2024)
                   (serving (only_trends trends_zero_prior))) = Ok r
            ∧ Overview.yoy_change r = Some (5 - 0))
  ∧ (Trend.total <$> trend_record trends_null_sheltered 2023
       = Some (Some 10264)
     ∧ Trend.total <$> trend_record trends_null_sheltered 2022
       = Some (Some 8427)
     ∧ fst (get_overview (Some 2023)
              (serving (only_trends trends_null_sheltered)))
         = Raise TypeError
     ∧ ¬ ∃ r, fst (get_overview (Some 2023)
                     (serving (only_trends trends_null_sheltered))) = Ok r
              ∧ Overview.yoy_change r = Some (10264 - 8427)).
Proof.
  split.
  - repeat split; try reflexivity.
    intros (r & Hr & _). vm_compute in Hr. discriminate.
  - repeat split; try reflexivity.
    intros (r & Hr & _). vm_compute in Hr. discriminate.
Qed.

(** C10 as stated fails on a record with a null count, as the builder
    writes it for a cell that does not cast: records for 2022 and 2023
    exist and the prior total is not zero, and the overview of 2023 raises
    [TypeError]. *)
Lemma get_overview_null_count_raises :
  trend_record trends_null_sheltered 2023
    = Some {| Trend.year := Some 2023; Trend.total := Some 10264;
              Trend.sheltered := None; Trend.unsheltered := Some 5171 |}
  ∧ trend_record trends_null_sheltered 2022 = Some (trend 2022 8427 4321 4106)
  ∧ fst (get_overview (Some 2023)
           (serving (only_trends trends_null_sheltered))) = Raise TypeError
  ∧ ¬ (is_ok (fst (get_overview (Some 2023)
                     (serving (only_trends trends_null_sheltered)))) = true
       ↔ 8427 ≠ 0).
Proof.
  repeat split; try reflexivity.
  intros [_ H]. by discriminate H.
Qed.

Lemma get_overview_division_unguarded_witness :
  ((is_ok (fst (get_overview (Some 2024)
                  (serving (only_trends trends_zero_prior)))) = true ↔ 0 ≠ 0)
   ∧ (0 = 0 →
      fst (get_overview (Some 2024) (serving (only_trends trends_zero_prior)))
        = Raise ZeroDivisionError))
  ∧ fst (get_overview (Some 2023)
           (serving (only_trends trends_null_sheltered))) = Raise TypeError.
Proof.
  split.
  - destruct (get_overview_division_unguarded
                (serving (only_trends trends_zero_prior)) trends_zero_prior
                2024 (trend 2024 5 2 3) (trend 2023 0 0 0)) as [H _];
      [reflexivity | unfold INTEGER; lia | reflexivity | reflexivity |].
    apply (H 5 2 3 0);
      [reflexivity | reflexivity | reflexivity | reflexivity
       | unfold INTEGER; lia | unfold INTEGER; lia].
  - destruct (get_overview_division_unguarded
                (serving (only_trends trends_null_sheltered))
                trends_null_sheltered 2023
                {| Trend.year := Some 2023; Trend.total := Some 10264;
                   Trend.sheltered := None; Trend.unsheltered := Some 5171 |}
                (trend 2022 8427 4321 4106)) as [_ H];
      [reflexivity | unfold INTEGER; lia | reflexivity | reflexivity |].
    apply H. right. left. reflexivity.
Defined.

(** C8 as stated fails on the error path: with the trend file missing,
    [get_pit_trends] opens a connection and raises without closing it. *)
Lemma connection_left_open_on_error :
  perform (pit_trends_op 2011 2024) (serving no_files)
    = (Some IOException, {| files := no_files; opened := 1; closed := 0 |}).
Proof. reflexivity. Qed.

Lemma connection_discipline_witness :
  files (perform (pit_trends_op 2011 2024) (serving no_files)).2 = no_files
  ∧ opened (perform (pit_trends_op 2011 2024) (serving no_files)).2 = 1%nat
  ∧ closed (perform (overview_op None)
              (serving (only_trends trends_2023_2024))).2 = 1%nat
  ∧ closed (perform (pit_trends_op 2011 2024) (serving no_files)).2 = 0%nat.
Proof.
  destruct (connection_discipline (pit_trends_op 2011 2024) (serving no_files))
    as (Hf & Ho & _ & Hleak).
  destruct (connection_discipline (overview_op None)
              (serving (only_trends trends_2023_2024))) as (_ & _ & Hok & _).
  split; [exact Hf|]. split; [exact Ho|].
  split; [exact (Hok eq_refl) | exact (Hleak eq_refl)].
Defined.

(** C1 as stated fails: with no trend file, [get_pit_trends] over the
    default range raises instead of returning an empty collection. *)
Lemma get_pit_trends_missing_file_raises :
  pit_trends (files (serving no_files)) = None
  ∧ get_pit_trends year_min_default year_max_default (serving no_files)
      = (Raise IOException, leaked (serving no_files)).
Proof. split; reflexivity. Qed.

Lemma missing_dataset_policy_witness :
  get_filter_options (serving without_geography)
    = (Ok {| years := [2023; 2024]; regions := [] |},
       released (serving without_geography))
  ∧ (perform (overview_op None) (serving no_files)).1 = Some IOException
  ∧ (perform (subpopulations_op 2011 2024 (Some "Veterans"))
       (serving no_files)).1 = Some IOException.
Proof.
  split; [|split].
  - apply (proj1 (missing_dataset_policy (serving without_geography))
             trends_2023_2024); reflexivity.
  - apply (proj1 (proj2 (missing_dataset_policy (serving no_files))));
      reflexivity.
  - apply (proj2 (proj2 (missing_dataset_policy (serving no_files))));
      reflexivity.
Defined.

Lemma get_geography_missing_file_witness :
  get_geography None None (serving without_geography)
    = (Raise IOException, leaked (serving without_geography)).
Proof.
  apply (get_geography_missing_file (serving without_geography)).
  reflexivity.
Defined.

(** The same files, read by [get_filter_options]: the missing geography
    file is caught there. *)
Example get_filter_options_without_geography :
  fst (get_filter_options (serving without_geography))
    = Ok {| years := [2023; 2024]; regions := [] |}.
Proof. reflexivity. Qed.

Example get_geography_2024 :
  fst (get_geography None None (serving without_spending))
    = Ok [geo 2024 "City of San Diego" 6800 3000 3800;
          geo 2024 "East County" 1200 500 700].
Proof. reflexivity. Qed.

(** * Properties of the aggregation builder *)

Section TransformFacts.
Context {cell amount : Type} `{!Engine cell amount}.
Implicit Types (s : state cell amount) (t : table cell).

(** ** Loading the raw tables *)

Lemma load_raw_table_spec name file s :
  load_raw_table (name, file) s =
    (Ok tt,
     {| raw_dir := raw_dir s; budget_parquet := budget_parquet s;
        db := <[name := table_for s file]> (db s);
        processed_dir := processed_dir s;
        aggregated_dir := aggregated_dir s;
        db_connections := db_connections s;
        stdout := stdout s ++ load_message s (name, file) |}).
Proof.
  unfold load_raw_table, bind, exists_raw, print, drop_table_if_exists,
    create_table, read_csv, count_rows, from_table, table_for, load_message,
    set_db.
  simpl. destruct (raw_dir s !! file) as [t|] eqn:Hfile; simpl.
  - rewrite Hfile. simpl. rewrite lookup_delete_eq. simpl.
    rewrite lookup_insert_eq. simpl. by rewrite insert_delete_eq.
  - rewrite lookup_delete_eq. simpl. by rewrite insert_delete_eq.
Qed.

Lemma _load_raw_tables_spec s :
  _load_raw_tables s =
    (Ok tt,
     {| raw_dir := raw_dir s; budget_parquet := budget_parquet s;
        db := loaded_db s;
        processed_dir := processed_dir s;
        aggregated_dir := aggregated_dir s;
        db_connections := db_connections s;
        stdout := stdout s ++ flat_map (load_message s) csv_files |}).
Proof.
  unfold _load_raw_tables, csv_files, for_each, bind.
  rewrite !load_raw_table_spec. simpl.
  unfold loaded_db, table_for, load_message, ret. simpl.
  by rewrite app_nil_r, <-!app_assoc.
Qed.

Lemma loaded_db_counts s :
  loaded_db s !! "raw_pit_counts" = Some (table_for s "pit_counts.csv").
Proof.
  unfold loaded_db.
  rewrite lookup_insert_ne by done. rewrite lookup_insert_ne by done.
  by rewrite lookup_insert_eq.
Qed.

Lemma loaded_db_subpopulations s :
  loaded_db s !! "raw_pit_subpopulations"
    = Some (table_for s "pit_subpopulations.csv").
Proof.
  unfold loaded_db.
  rewrite lookup_insert_ne by done. by rewrite lookup_insert_eq.
Qed.

Lemma loaded_db_geography s :
  loaded_db s !! "raw_pit_geography" = Some (table_for s "pit_geography.csv").
Proof. unfold loaded_db. by rewrite lookup_insert_eq. Qed.

(** ** A whole run *)

Lemma bind_ok {S A B} (m : M S A) (k : A → M S B) st a st' :
  m st = (Ok a, st') → bind m k st = k a st'.
Proof. unfold bind. by intros ->. Qed.

(** A run is the four writing steps in the state the loading left. *)
Lemma transform_after_load s :
  transform s =
    (run _export_processed then
     run _build_aggregations then
     run _build_spending_crossref then
     run close_db then
     print transform_complete)
      {| raw_dir := raw_dir s; budget_parquet := budget_parquet s;
         db := loaded_db s;
         processed_dir := processed_dir s;
         aggregated_dir := aggregated_dir s;
         db_connections := S (db_connections s);
         stdout := stdout s ++ flat_map (load_message s) csv_files |}.
Proof.
  unfold transform.
  erewrite bind_ok by (unfold connect_db; reflexivity).
  erewrite bind_ok by apply _load_raw_tables_spec.
  reflexivity.
Qed.

Lemma transform_spec s :
  (transform s).1 = run_result s
  ∧ (processed_dir (transform s).2, aggregated_dir (transform s).2)
      = files_after_run s
  ∧ raw_dir (transform s).2 = raw_dir s
  ∧ budget_parquet (transform s).2 = budget_parquet s
  ∧ ∃ rest, stdout (transform s).2
            = (stdout s ++ flat_map (load_message s) csv_files) ++ rest.
Proof.
  rewrite transform_after_load.
  set (base := stdout s ++ flat_map (load_message s) csv_files).
  unfold run_result, files_after_run.
  unfold _export_processed, _build_aggregations, _build_spending_crossref,
    read_budget, copy_spending, close_db, bind, copy_to, print, from_table,
    set_processed, set_aggregated, set_connections.
  simpl. rewrite loaded_db_counts.
  destruct (select_processed _) as [p|e]; simpl;
    [|repeat split; exists []; by rewrite app_nil_r].
  rewrite loaded_db_counts.
  destruct (select_pit_trends _) as [tr|e]; simpl;
    [|repeat split; eexists; rewrite <-?app_assoc; reflexivity].
  rewrite loaded_db_subpopulations.
  destruct (select_pit_subpopulations _) as [sp|e]; simpl;
    [|repeat split; eexists; rewrite <-?app_assoc; reflexivity].
  rewrite loaded_db_geography.
  destruct (select_pit_geography _) as [g|e]; simpl;
    [|repeat split; eexists; rewrite <-?app_assoc; reflexivity].
  destruct (budget_parquet s) as [budget|]; simpl;
    repeat split; eexists; rewrite <-?app_assoc; reflexivity.
Qed.

(** ** Rebuilding *)

Lemma files_after_run_stable s s1 :
  raw_dir s1 = raw_dir s →
  budget_parquet s1 = budget_parquet s →
  (processed_dir s1, aggregated_dir s1) = files_after_run s →
  files_after_run s1 = files_after_run s.
Proof.
  unfold files_after_run, table_for.
  intros -> ->.
  destruct (select_processed _) as [p|e];
    [|by intros [= H1 H2]; rewrite ?H1, ?H2].
  destruct (select_pit_trends _) as [tr|e];
    [|by intros [= H1 H2]; rewrite ?H1, ?H2].
  destruct (select_pit_subpopulations _) as [sp|e];
    [|by intros [= H1 H2]; rewrite ?H1, ?H2].
  destruct (select_pit_geography _) as [g|e];
    [|by intros [= H1 H2]; rewrite ?H1, ?H2].
  destruct (budget_parquet s) as [budget|];
    by intros [= H1 H2]; rewrite ?H1, ?H2.
Qed.

(** C9. Running the builder a second time on the same raw files leaves
    every derived file as the first run left it: the processed file and
    the four files of the aggregated directory are identical. *)
Theorem transform_idempotent s :
  processed_dir (transform (transform s).2).2 = processed_dir (transform s).2
  ∧ aggregated_dir (transform (transform s).2).2
      = aggregated_dir (transform s).2.
Proof.
  destruct (transform_spec s) as (_ & Hfiles & Hraw & Hbudget & _).
  destruct (transform_spec (transform s).2) as (_ & Hfiles' & _).
  rewrite (files_after_run_stable s _ Hraw Hbudget Hfiles) in Hfiles'.
  rewrite <-Hfiles in Hfiles'. by injection Hfiles' as -> ->.
Qed.

(** ** A missing raw file *)

Lemma select_processed_dummy :
  select_processed dummy_table = Raise BinderException.
Proof. reflexivity. Qed.

Lemma select_pit_subpopulations_dummy :
  select_pit_subpopulations dummy_table
    = Raise BinderException.
Proof. reflexivity. Qed.

Lemma select_pit_geography_dummy :
  select_pit_geography dummy_table
    = Raise BinderException.
Proof. reflexivity. Qed.

Lemma select_processed_raises t e :
  select_processed t = Raise e → e = BinderException.
Proof. unfold select_processed. by destruct (bound _ t); intros [= <-]. Qed.

Lemma select_pit_trends_raises t e :
  select_pit_trends t = Raise e → e = BinderException.
Proof. unfold select_pit_trends. by destruct (bound _ t); intros [= <-]. Qed.

Lemma select_pit_subpopulations_raises t e :
  select_pit_subpopulations t = Raise e →
  e = BinderException.
Proof.
  unfold select_pit_subpopulations. by destruct (bound _ t); intros [= <-].
Qed.

Lemma table_for_missing s file :
  raw_dir s !! file = None → table_for s file = dummy_table.
Proof. unfold table_for. by intros ->. Qed.

(** C5, where the code departs from it. When one of the three raw files is
    missing, the run prints that the file was not found and makes the
    placeholder table, and then the first statement that selects from the
    placeholder does not bind: the run ends with DuckDB's binder error, and
    the dataset derived from the missing file is not written. *)
Theorem transform_aborts_on_missing_source s name file :
  (name, file) ∈ csv_files →
  raw_dir s !! file = None →
  (transform s).1 = Raise BinderException
  ∧ warn_not_found file ∈ stdout (transform s).2
  ∧ (file = "pit_counts.csv" →
     pit_trends (aggregated_dir (transform s).2)
       = pit_trends (aggregated_dir s))
  ∧ (file = "pit_subpopulations.csv" →
     pit_subpopulations (aggregated_dir (transform s).2)
       = pit_subpopulations (aggregated_dir s))
  ∧ (file = "pit_geography.csv" →
     pit_geography (aggregated_dir (transform s).2)
       = pit_geography (aggregated_dir s)).
Proof.
  intros Hin Hmissing.
  destruct (transform_spec s) as (Hres & Hfiles & _ & _ & rest & Hout).
  assert (Hagg : aggregated_dir (transform s).2 = (files_after_run s).2)
    by by rewrite <-Hfiles.
  rewrite Hres, Hout, Hagg. clear Hres Hout Hfiles Hagg.
  pose proof (table_for_missing s file Hmissing) as Hdummy.
  split; [|split].
  - unfold run_result.
    unfold csv_files in Hin.
    repeat (apply elem_of_cons in Hin as [[= -> ->]|Hin]);
      [| | |by apply elem_of_nil in Hin].
    + by rewrite Hdummy, select_processed_dummy.
    + destruct (select_processed _) as [?|e] eqn:H1;
        [|by rewrite (select_processed_raises _ _ H1)].
      destruct (select_pit_trends _) as [?|e] eqn:H2;
        [|by rewrite (select_pit_trends_raises _ _ H2)].
      by rewrite Hdummy, select_pit_subpopulations_dummy.
    + destruct (select_processed _) as [?|e] eqn:H1;
        [|by rewrite (select_processed_raises _ _ H1)].
      destruct (select_pit_trends _) as [?|e] eqn:H2;
        [|by rewrite (select_pit_trends_raises _ _ H2)].
      destruct (select_pit_subpopulations _) as [?|e] eqn:H3;
        [|by rewrite (select_pit_subpopulations_raises _ _ H3)].
      by rewrite Hdummy, select_pit_geography_dummy.
  - apply elem_of_app. left. apply elem_of_app. right.
    apply list_elem_of_In, in_flat_map. exists (name, file).
    split; [by apply list_elem_of_In|].
    unfold load_message. simpl. rewrite Hmissing. by left.
  - unfold files_after_run.
    split; [|split]; intros Hfile; rewrite Hfile in Hdummy.
    + by rewrite Hdummy, select_processed_dummy.
    + destruct (select_processed _); [|done].
      destruct (select_pit_trends _); [|done].
      by rewrite Hdummy, select_pit_subpopulations_dummy.
    + destruct (select_processed _); [|done].
      destruct (select_pit_trends _); [|done].
      destruct (select_pit_subpopulations _); [|done].
      by rewrite Hdummy, select_pit_geography_dummy.
Qed.

(** ** Rows that do not cast *)

(** The result of an ordered, filtered projection, with one input row
    singled out. *)
Lemma order_by_map_filter_middle {A B} (leb : B → B → bool) (f : A → B)
    (keep : A → bool) (l1 l2 : list A) (r : A) :
  order_by leb (map f (filter (λ x, Is_true (keep x)) (l1 ++ r :: l2)))
  ≡ₚ (if keep r then [f r] else [])
     ++ order_by leb (map f (filter (λ x, Is_true (keep x)) (l1 ++ l2))).
Proof.
  rewrite !order_by_Permutation, !filter_app, filter_cons, !map_app.
  destruct (decide (Is_true (keep r))) as [Hk|Hk].
  - apply Is_true_true in Hk. rewrite Hk. simpl.
    by rewrite <-Permutation_middle.
  - apply Is_true_false in Hk. by rewrite Hk.
Qed.

Lemma year_casts_Some (r : gmap string cell) y :
  int_col r "year" = Some y → year_casts r = true.
Proof. intros H. unfold year_casts. rewrite H. by apply bool_decide_eq_true_2. Qed.

Lemma year_casts_None (r : gmap string cell) :
  int_col r "year" = None → year_casts r = false.
Proof.
  intros H. unfold year_casts. rewrite H.
  apply bool_decide_eq_false_2. by intros [? ?].
Qed.

(** C4, amended. Take any row [r] of a raw table whose columns bind.
    If the year of [r] does not cast, the derived dataset is the one built
    without [r].  If it casts, a trend row or a geography row is kept, each
    of its counts being the cast of the raw value, NULL where that cast
    fails; a subgroup row is kept only if its count casts as well, and is
    dropped otherwise. *)
Theorem row_cast_policy cols (l1 l2 : list (gmap string cell))
    (r : gmap string cell) :
  let t := {| columns := cols; rows := l1 ++ r :: l2 |} in
  let t' := {| columns := cols; rows := l1 ++ l2 |} in
  (bound ["year"; "total_homeless"; "sheltered"; "unsheltered"] t = true →
   ∃ out out',
     select_pit_trends t = Ok out
     ∧ select_pit_trends t' = Ok out'
     ∧ match int_col r "year" with
       | None => out ≡ₚ out'
       | Some y =>
           out ≡ₚ {| Trend.year := Some y;
                     Trend.total := int_col r "total_homeless";
                     Trend.sheltered := int_col r "sheltered";
                     Trend.unsheltered := int_col r "unsheltered" |} :: out'
       end)
  ∧ (bound ["year"; "region"; "total"; "sheltered"; "unsheltered"] t = true →
     ∃ out out',
       select_pit_geography t = Ok out
       ∧ select_pit_geography t' = Ok out'
       ∧ match int_col r "year" with
         | None => out ≡ₚ out'
         | Some y =>
             out ≡ₚ {| Geo.year := Some y;
                       Geo.region := text_col r "region";
                       Geo.total := int_col r "total";
                       Geo.sheltered := int_col r "sheltered";
                       Geo.unsheltered := int_col r "unsheltered" |} :: out'
         end)
  ∧ (bound ["year"; "group_name"; "count"] t = true →
     ∃ out out',
       select_pit_subpopulations t = Ok out
       ∧ select_pit_subpopulations t' = Ok out'
       ∧ match int_col r "year", int_col r "count" with
         | Some y, Some c =>
             out ≡ₚ {| Subpop.year := Some y;
                       Subpop.group_name := text_col r "group_name";
                       Subpop.count := Some c |} :: out'
         | _, _ => out ≡ₚ out'
         end).
Proof.
  intros t t'. split; [|split]; intros Hbound.
  - unfold select_pit_trends.
    rewrite (Hbound : bound _ t' = true), Hbound. do 2 eexists.
    split; [done|]. split; [done|]. unfold t, t'. simpl.
    pose proof (order_by_map_filter_middle
                  (λ r1 r2, asc_leb (Trend.year r1) (Trend.year r2))
                  (trend_of)
                  (year_casts) l1 l2 r) as Hmid.
    destruct (int_col r "year") as [y|] eqn:Hy.
    + rewrite (year_casts_Some r y Hy) in Hmid. rewrite Hmid. simpl.
      unfold trend_of. by rewrite Hy.
    + rewrite (year_casts_None r Hy) in Hmid. by rewrite Hmid.
  - unfold select_pit_geography.
    rewrite (Hbound : bound _ t' = true), Hbound. do 2 eexists.
    split; [done|]. split; [done|]. unfold t, t'. simpl.
    pose proof (order_by_map_filter_middle
                  (lex_leb
                     (λ r1 r2, asc_ltb (Geo.year r1) (Geo.year r2))
                     (λ r1 r2, asc_leb (Geo.year r1) (Geo.year r2))
                     (λ r1 r2, text_leb (Geo.region r1) (Geo.region r2)))
                  (geo_of)
                  (year_casts) l1 l2 r) as Hmid.
    destruct (int_col r "year") as [y|] eqn:Hy.
    + rewrite (year_casts_Some r y Hy) in Hmid. rewrite Hmid. simpl.
      unfold geo_of. by rewrite Hy.
    + rewrite (year_casts_None r Hy) in Hmid. by rewrite Hmid.
  - unfold select_pit_subpopulations.
    rewrite (Hbound : bound _ t' = true), Hbound. do 2 eexists.
    split; [done|]. split; [done|]. unfold t, t'. simpl.
    pose proof (order_by_map_filter_middle
                  (lex_leb
                     (λ r1 r2, asc_ltb (Subpop.year r1) (Subpop.year r2))
                     (λ r1 r2, asc_leb (Subpop.year r1) (Subpop.year r2))
                     (λ r1 r2, text_leb (Subpop.group_name r1)
                                        (Subpop.group_name r2)))
                  (subpop_of)
                  (year_and_count_cast) l1 l2 r) as Hmid.
    unfold year_and_count_cast at 3 in Hmid.
    destruct (int_col r "year") as [y|] eqn:Hy.
    + rewrite (year_casts_Some r y Hy) in Hmid. simpl in Hmid.
      destruct (int_col r "count") as [c|] eqn:Hc.
      * rewrite bool_decide_eq_true_2 in Hmid by eauto.
        rewrite Hmid. simpl. unfold subpop_of. by rewrite Hy, Hc.
      * rewrite bool_decide_eq_false_2 in Hmid by (by intros [? ?]).
        by rewrite Hmid.
    + rewrite (year_casts_None r Hy) in Hmid. by rewrite Hmid.
Qed.

(** ** Spending that was never produced *)

Lemma _build_spending_crossref_skip s :
  budget_parquet s = None →
  _build_spending_crossref s =
    (Ok tt,
     {| raw_dir := raw_dir s; budget_parquet := budget_parquet s;
        db := db s; processed_dir := processed_dir s;
        aggregated_dir := aggregated_dir s;
        db_connections := db_connections s;
        stdout := stdout s ++ [skip_spending] |}).
Proof.
  intros Hb. unfold _build_spending_crossref, bind, read_budget, print.
  simpl. rewrite Hb. simpl. by rewrite Hb.
Qed.

(** No run writes the spending file while the city-budget dataset is
    absent. *)
Lemma spending_not_written s :
  budget_parquet s = None →
  homelessness_spending (aggregated_dir (transform s).2)
    = homelessness_spending (aggregated_dir s).
Proof.
  intros Hb. destruct (transform_spec s) as (_ & Hfiles & _).
  assert (Hagg : aggregated_dir (transform s).2 = (files_after_run s).2)
    by by rewrite <-Hfiles.
  rewrite Hagg. unfold files_after_run. rewrite Hb.
  destruct (select_processed _); [|done].
  destruct (select_pit_trends _); [|done].
  destruct (select_pit_subpopulations _); [|done].
  by destruct (select_pit_geography _).
Qed.

(** C6, where the code departs from it. When the city-budget dataset is
    absent and no spending file was written before, a run of the builder
    leaves no spending file, and [get_spending_trends] on the resulting
    directory does not return an empty collection: it raises DuckDB's error
    for the missing file. *)
Theorem spending_never_produced s (w : world amount) lo hi :
  budget_parquet s = None →
  homelessness_spending (aggregated_dir s) = None →
  files w = aggregated_dir (transform s).2 →
  get_spending_trends lo hi w = (Raise IOException, leaked w).
Proof.
  intros Hb Hnone Hw. apply get_spending_trends_missing_file.
  by rewrite Hw, (spending_not_written s Hb).
Qed.

End TransformFacts.

Example transform_all_sources :
  (transform all_sources).1 = Ok tt
  ∧ pit_trends (aggregated_dir (transform all_sources).2)
    = Some [{| Trend.year := Some 2023; Trend.total := Some 10264;
               Trend.sheltered := None; Trend.unsheltered := Some 5171 |};
            trend 2024 10605 4495 6110]
  ∧ pit_subpopulations
      (aggregated_dir (transform all_sources).2)
    = Some [{| Subpop.year := Some 2024; Subpop.group_name := Some "Veterans";
               Subpop.count := Some 865 |}]
  ∧ homelessness_spending
      (aggregated_dir (transform all_sources).2) = None.
Proof. vm_compute. repeat split; reflexivity. Qed.

Lemma transform_aborts_on_missing_source_witness :
  (transform no_geography_source).1 = Raise BinderException
  ∧ warn_not_found "pit_geography.csv"
      ∈ stdout (transform no_geography_source).2.
Proof.
  destruct (transform_aborts_on_missing_source
              no_geography_source "raw_pit_geography" "pit_geography.csv")
    as (Hraise & Hwarn & _).
  - unfold csv_files. do 2 apply list_elem_of_further. apply list_elem_of_here.
  - reflexivity.
  - split; [exact Hraise | exact Hwarn].
Defined.

(** What that run leaves: the trend and subgroup files are written, the
    geography file is not, and the run never reaches the spending step. *)
Example transform_no_geography_source :
  transform no_geography_source
  = (Raise BinderException,
     {| raw_dir := raw_dir no_geography_source;
        budget_parquet := None;
        db := loaded_db no_geography_source;
        processed_dir :=
          Some [{| Processed.year := Some 2023;
                   Processed.total_homeless := Some 10264;
                   Processed.sheltered := None;
                   Processed.unsheltered := Some 5171;
                   Processed.chronically_homeless := None;
                   Processed.veterans := None;
                   Processed.families_persons := None;
                   Processed.youth_under25 := None;
                   Processed.first_time_homeless := None |};
                {| Processed.year := Some 2024;
                   Processed.total_homeless := Some 10605;
                   Processed.sheltered := Some 4495;
                   Processed.unsheltered := Some 6110;
                   Processed.chronically_homeless := None;
                   Processed.veterans := Some 865;
                   Processed.families_persons := None;
                   Processed.youth_under25 := None;
                   Processed.first_time_homeless := None |}];
        aggregated_dir :=
          {| pit_trends :=
               Some [{| Trend.year := Some 2023; Trend.total := Some 10264;
                        Trend.sheltered := None;
                        Trend.unsheltered := Some 5171 |};
                     trend 2024 10605 4495 6110];
             pit_subpopulations :=
               Some [{| Subpop.year := Some 2024;
                        Subpop.group_name := Some "Veterans";
                        Subpop.count := Some 865 |}];
             pit_geography := None;
             homelessness_spending := None |};
        db_connections := 1;
        stdout := [loaded "raw_pit_counts" 3;
                   loaded "raw_pit_subpopulations" 2;
                   warn_not_found "pit_geography.csv";
                   exported_processed;
                   agg "pit_trends";
                   agg "pit_subpopulations"] |}).
Proof. vm_compute. reflexivity. Qed.

Lemma row_cast_policy_witness :
  ∃ out out',
    select_pit_trends
      {| columns := columns pit_counts_csv;
         rows := [counts_2024] ++ counts_2023 :: [counts_tbd] |} = Ok out
    ∧ select_pit_trends
        {| columns := columns pit_counts_csv;
           rows := [counts_2024] ++ [counts_tbd] |} = Ok out'
    ∧ out ≡ₚ {| Trend.year := Some 2023; Trend.total := Some 10264;
                Trend.sheltered := None; Trend.unsheltered := Some 5171 |}
             :: out'.
Proof.
  exact (proj1 (row_cast_policy (columns pit_counts_csv)
                  [counts_2024] [counts_tbd] counts_2023) eq_refl).
Defined.

(** C4 as stated fails for subgroup rows: the year of this row casts and
    only its count does not, yet the row is dropped, not kept with a NULL
    count. *)
Lemma subgroup_row_without_count_dropped :
  int_col families_2024 "year" = Some 2024
  ∧ int_col families_2024 "count" = None
  ∧ select_pit_subpopulations subpopulations_without_count
    = Ok [].
Proof. repeat split; reflexivity. Qed.

Lemma spending_never_produced_witness :
  get_spending_trends fy_min_default fy_max_default serving_after_first_run
    = (Raise IOException, leaked serving_after_first_run).
Proof.
  apply (spending_never_produced all_sources);
    reflexivity.
Defined.

(** * Further properties of the query layer *)

Section QueryRanges.
Context {amount : Type}.
Implicit Types (w : world amount).

Ltac unfold_op :=
  unfold get_filter_options, get_overview, get_pit_trends,
    get_subpopulations, get_geography, get_spending_trends;
  rewrite ?_run_spec;
  unfold bind, try_except, connect, execute, close, lift, ret,
    sql_distinct_years, sql_distinct_regions, sql_max_trend_year,
    sql_trend_counts, sql_trend_total, sql_trends, sql_subpopulations,
    sql_max_geography_year, sql_geography, sql_spending, scan, py_int,
    released, leaked;
  simpl.

(** ** Orders *)

Lemma text_key_transitive {A} (k : A → option string) :
  Transitive (rel_of (λ a b, text_leb (k a) (k b))).
Proof.
  intros a b c. unfold rel_of, text_leb.
  destruct (k a), (k b), (k c); simpl; try done.
  intros H1 H2. exact (transitivity (R := String.le) H1 H2).
Qed.

Lemma text_key_total {A} (k : A → option string) :
  Total (rel_of (λ a b, text_leb (k a) (k b))).
Proof.
  intros a b. unfold rel_of, text_leb.
  destruct (k a) as [x|], (k b) as [y|]; simpl; auto.
  apply (total String.le).
Qed.

(** [ORDER BY k1, k2]: before on the first key, or equal on it and in
    order on the second. *)
Lemma lex_leb_spec {A} (k1 : A → option Z) (k2 : A → option string) a b :
  Is_true (lex_leb (λ a b, asc_ltb (k1 a) (k1 b))
                   (λ a b, asc_leb (k1 a) (k1 b))
                   (λ a b, text_leb (k2 a) (k2 b)) a b)
  ↔ Is_true (asc_ltb (k1 a) (k1 b))
    ∨ (k1 a = k1 b ∧ Is_true (text_leb (k2 a) (k2 b))).
Proof.
  unfold lex_leb, asc_ltb, asc_leb. rewrite orb_True, andb_True.
  destruct (k1 a) as [x|], (k1 b) as [y|]; simpl.
  - destruct (Z.leb_spec y x), (Z.leb_spec x y); simpl.
    + split; (intros [?|[? ?]]; [done|]); right; (split; [|done]);
        [f_equal; lia | done].
    + split; (intros [?|[? ?]]; try done). simplify_eq. lia.
    + split; intros _; by left.
    + split; intros _; by left.
  - tauto.
  - split; (intros [?|[? ?]]; done).
  - split; (intros [?|[? ?]]; try done); by right.
Qed.

Lemma asc_ltb_spec (x y : option Z) :
  Is_true (asc_ltb x y) ↔
  match x, y with
  | Some a, Some b => a < b
  | Some _, None => True
  | None, _ => False
  end.
Proof.
  unfold asc_ltb, asc_leb. destruct x as [a|], y as [b|]; simpl; try tauto.
  destruct (Z.leb_spec b a); simpl; split; try done; lia.
Qed.

Lemma lex_key_transitive {A} (k1 : A → option Z) (k2 : A → option string) :
  Transitive (rel_of (lex_leb (λ a b, asc_ltb (k1 a) (k1 b))
                              (λ a b, asc_leb (k1 a) (k1 b))
                              (λ a b, text_leb (k2 a) (k2 b)))).
Proof.
  intros a b c. unfold rel_of. rewrite !lex_leb_spec, !asc_ltb_spec.
  intros [H1|[E1 H1]] [H2|[E2 H2]].
  - left. destruct (k1 a), (k1 b), (k1 c); try done. lia.
  - left. by rewrite <-E2.
  - left. by rewrite E1.
  - right. split; [congruence|].
    exact (text_key_transitive k2 a b c H1 H2).
Qed.

Lemma lex_key_total {A} (k1 : A → option Z) (k2 : A → option string) :
  Total (rel_of (lex_leb (λ a b, asc_ltb (k1 a) (k1 b))
                         (λ a b, asc_leb (k1 a) (k1 b))
                         (λ a b, text_leb (k2 a) (k2 b)))).
Proof.
  intros a b. unfold rel_of. rewrite !lex_leb_spec, !asc_ltb_spec.
  destruct (text_key_total k2 a b) as [Ht|Ht]; unfold rel_of in Ht;
    destruct (k1 a) as [x|], (k1 b) as [y|]; auto;
    destruct (Z.lt_trichotomy x y) as [?|[->|?]]; auto.
Qed.

(** ** The year range of [_where] *)

Lemma satisfies_year_range (yr : option Z) (grp : option string) lo hi :
  Is_true (satisfies yr grp (_where (Some lo) (Some hi)))
  ↔ ∃ y, yr = Some y ∧ lo ≤ y ≤ hi.
Proof.
  unfold satisfies, _where, holds, sql_ge, sql_le. simpl.
  destruct yr as [y|]; simpl.
  - rewrite andb_true_r, andb_True, !Is_true_true, !Z.leb_le. split.
    + intros [? ?]. exists y. split; [done | lia].
    + intros (y' & [= <-] & ?). lia.
  - split; [done | by intros (? & ? & _)].
Qed.

(** [_q] adds one condition to whatever the clause already requires. *)
Lemma satisfies_q (yr : option Z) (grp : option string) wc c :
  satisfies yr grp (_q wc c) = satisfies yr grp wc && holds yr grp c.
Proof.
  unfold satisfies, _q. destruct wc as [|c0 wc]; simpl.
  - by rewrite andb_true_r.
  - rewrite forallb_app. simpl. by rewrite andb_true_r, andb_assoc.
Qed.

Lemma year_range_filter (yr : option Z) lo hi :
  Is_true (sql_ge yr lo && sql_le yr hi) ↔ ∃ y, yr = Some y ∧ lo ≤ y ≤ hi.
Proof.
  unfold sql_ge, sql_le. destruct yr as [y|]; simpl.
  - rewrite andb_True, !Is_true_true, !Z.leb_le. split.
    + intros [? ?]. exists y. split; [done | lia].
    + intros (y' & [= <-] & ?). lia.
  - split; [done | by intros (? & ? & _)].
Qed.

(** X1. When the trend file exists, [get_pit_trends] with bounds of the
    INTEGER range returns normally with exactly its records whose year
    lies in the inclusive range, by ascending year, and has closed its
    connection; a range that holds no year of the file gives the empty
    collection. *)
Theorem get_pit_trends_in_range w (trends : list Trend.row) lo hi :
  pit_trends (files w) = Some trends →
  INTEGER lo → INTEGER hi →
  ∃ out,
    get_pit_trends lo hi w = (Ok out, released w)
    ∧ out ≡ₚ filter (λ r, Is_true (sql_ge (Trend.year r) lo
                                    && sql_le (Trend.year r) hi)) trends
    ∧ (∀ r, r ∈ out ↔
            r ∈ trends ∧ ∃ y, Trend.year r = Some y ∧ lo ≤ y ≤ hi)
    ∧ StronglySorted
        (rel_of (λ r1 r2, asc_leb (Trend.year r1) (Trend.year r2))) out
    ∧ (Forall (λ r, ∀ y, Trend.year r = Some y → ¬ lo ≤ y ≤ hi) trends →
       out = []).
Proof.
  intros Htr _ _. unfold get_pit_trends. rewrite _run_spec.
  unfold sql_trends, scan. rewrite Htr. eexists. split; [done|].
  assert (Hfilter :
    filter (λ r : Trend.row,
              Is_true (satisfies (Trend.year r) None
                         (_where (Some lo) (Some hi)))) trends
    = filter (λ r, Is_true (sql_ge (Trend.year r) lo
                            && sql_le (Trend.year r) hi)) trends).
  { apply list_filter_iff. intros r.
    by rewrite satisfies_year_range, year_range_filter. }
  rewrite Hfilter. split; [|split; [|split]].
  - apply order_by_Permutation.
  - intros r. rewrite order_by_Permutation, list_elem_of_filter.
    rewrite year_range_filter. tauto.
  - apply order_by_sorted; [apply asc_key_transitive | apply asc_key_total].
  - intros Hnone. apply Permutation_nil_r. rewrite order_by_Permutation.
    clear Htr Hfilter. induction Hnone as [|r l Hr _ IH]; [done|].
    rewrite filter_cons. destruct (decide _) as [Hk|Hk]; [|done].
    apply year_range_filter in Hk as (y & Hy & Hrange).
    by destruct (Hr y Hy).
Qed.

(** ** Subpopulations *)

Lemma truthy_spec (s : option string) g :
  truthy s = Some g ↔ s = Some g ∧ g ≠ "".
Proof.
  unfold truthy. destruct s as [[|c s']|]; split;
    try (intros [= <-]); try (by intros [[= <-] ?]); try done.
Qed.

(** The WHERE clause [get_subpopulations] assembles, on one row. *)
Lemma satisfies_subpopulations (r : Subpop.row) lo hi group :
  Is_true (satisfies (Subpop.year r) (Subpop.group_name r)
             (match truthy group with
              | Some g => _q (_where (Some lo) (Some hi)) (group_name_eq g)
              | None => _where (Some lo) (Some hi)
              end))
  ↔ (∃ y, Subpop.year r = Some y ∧ lo ≤ y ≤ hi)
    ∧ ∀ g, truthy group = Some g → Subpop.group_name r = Some g.
Proof.
  destruct (truthy group) as [g|].
  - rewrite satisfies_q, andb_True, satisfies_year_range.
    unfold holds, sql_text_eq.
    destruct (Subpop.group_name r) as [n|]; simpl.
    + rewrite bool_decide_spec. split.
      * intros [? ->]. split; [done|]. by intros ? [= <-].
      * intros [? Hg]. split; [done|]. by injection (Hg g eq_refl).
    + split; [by intros [_ ?]|]. intros [_ Hg]. by specialize (Hg g eq_refl).
  - rewrite satisfies_year_range. split; [|tauto]. intros ?. by split.
Qed.

(** The clause in terms of the three SQL comparisons. *)
Lemma satisfies_subpopulation_filter (r : Subpop.row) lo hi group :
  satisfies (Subpop.year r) (Subpop.group_name r)
    (match truthy group with
     | Some g => _q (_where (Some lo) (Some hi)) (group_name_eq g)
     | None => _where (Some lo) (Some hi)
     end)
  = subpopulation_filter lo hi group r.
Proof.
  unfold subpopulation_filter. destruct (truthy group) as [g|].
  - rewrite satisfies_q. unfold satisfies, _where, holds. simpl.
    by rewrite andb_true_r.
  - unfold satisfies, _where, holds. simpl. by rewrite !andb_true_r.
Qed.

(** X2. When the subgroup file exists, [get_subpopulations] with bounds of
    the INTEGER range returns normally with exactly its records (each as
    often as the file has it) whose year lies in the inclusive range and,
    when a non-empty group is given, whose group name is that group,
    ordered by year and then by group name.  A group name that no record
    carries gives the empty collection, and the empty string is no filter
    at all. *)
Theorem get_subpopulations_filtered w (subpops : list Subpop.row) lo hi group :
  pit_subpopulations (files w) = Some subpops →
  INTEGER lo → INTEGER hi →
  ∃ out,
    get_subpopulations lo hi group w = (Ok out, released w)
    ∧ out ≡ₚ filter (λ r, Is_true (subpopulation_filter lo hi group r))
               subpops
    ∧ (∀ r, Is_true (subpopulation_filter lo hi group r) ↔
            (∃ y, Subpop.year r = Some y ∧ lo ≤ y ≤ hi)
            ∧ ∀ g, group = Some g → g ≠ "" → Subpop.group_name r = Some g)
    ∧ (∀ r, r ∈ out ↔
            r ∈ subpops
            ∧ (∃ y, Subpop.year r = Some y ∧ lo ≤ y ≤ hi)
            ∧ ∀ g, group = Some g → g ≠ "" → Subpop.group_name r = Some g)
    ∧ StronglySorted
        (rel_of (lex_leb
                   (λ r1 r2, asc_ltb (Subpop.year r1) (Subpop.year r2))
                   (λ r1 r2, asc_leb (Subpop.year r1) (Subpop.year r2))
                   (λ r1 r2, text_leb (Subpop.group_name r1)
                                      (Subpop.group_name r2)))) out
    ∧ (∀ g, group = Some g → g ≠ "" →
            Forall (λ r, Subpop.group_name r ≠ Some g) subpops → out = [])
    ∧ get_subpopulations lo hi (Some "") w = get_subpopulations lo hi None w.
Proof.
  intros Hsp _ _. unfold get_subpopulations. rewrite !_run_spec.
  unfold sql_subpopulations, scan. rewrite Hsp. eexists. split; [done|].
  assert (Hspec : ∀ r : Subpop.row,
    Is_true (subpopulation_filter lo hi group r)
    ↔ (∃ y, Subpop.year r = Some y ∧ lo ≤ y ≤ hi)
      ∧ ∀ g, group = Some g → g ≠ "" → Subpop.group_name r = Some g).
  { intros r.
    rewrite <-satisfies_subpopulation_filter, satisfies_subpopulations.
    split.
    - intros [Hy Hg]. split; [done|].
      intros g Hgroup Hne. apply Hg, truthy_spec. by split.
    - intros [Hy Hg]. split; [done|].
      intros g [Hgroup Hne]%truthy_spec. by apply Hg. }
  assert (Hfilter :
    filter (λ r : Subpop.row,
              Is_true (satisfies (Subpop.year r) (Subpop.group_name r)
                 (match truthy group with
                  | Some g =>
                      _q (_where (Some lo) (Some hi)) (group_name_eq g)
                  | None => _where (Some lo) (Some hi)
                  end))) subpops
    = filter (λ r, Is_true (subpopulation_filter lo hi group r)) subpops).
  { apply list_filter_iff. intros r.
    by rewrite satisfies_subpopulation_filter. }
  rewrite Hfilter.
  assert (Hmem : ∀ r,
    r ∈ filter (λ r, Is_true (subpopulation_filter lo hi group r)) subpops
    ↔ r ∈ subpops
      ∧ (∃ y, Subpop.year r = Some y ∧ lo ≤ y ≤ hi)
      ∧ ∀ g, group = Some g → g ≠ "" → Subpop.group_name r = Some g).
  { intros r. rewrite list_elem_of_filter, Hspec. tauto. }
  split; [|split; [|split; [|split; [|split]]]].
  - apply order_by_Permutation.
  - exact Hspec.
  - intros r. by rewrite order_by_Permutation, Hmem.
  - apply order_by_sorted; [apply lex_key_transitive | apply lex_key_total].
  - intros g Hgroup Hne Hnone. apply Permutation_nil_r.
    rewrite order_by_Permutation. apply Permutation_nil_r, elem_of_nil_inv.
    intros r (Hin & _ & Hg)%Hmem.
    rewrite Forall_forall in Hnone. by apply (Hnone r Hin), Hg.
  - done.
Qed.

(** ** Filter options *)

Lemma sorted_distinct (l : list Z) :
  StronglySorted Z.le (sorted (merge_sort Z.le (remove_dups l)))
  ∧ NoDup (sorted (merge_sort Z.le (remove_dups l)))
  ∧ ∀ y, y ∈ sorted (merge_sort Z.le (remove_dups l)) ↔ y ∈ l.
Proof.
  unfold sorted. split; [|split].
  - apply StronglySorted_merge_sort; apply _.
  - rewrite !merge_sort_Permutation. apply NoDup_remove_dups.
  - intros y. by rewrite !merge_sort_Permutation, elem_of_remove_dups.
Qed.

Lemma get_filter_options_present w (trends : list Trend.row)
    (geography : list Geo.row) :
  pit_trends (files w) = Some trends →
  pit_geography (files w) = Some geography →
  get_filter_options w
    = (Ok {| years := sorted (merge_sort Z.le
                                (remove_dups (omap Trend.year trends)));
             regions := merge_sort String.le
                          (remove_dups (omap Geo.region geography)) |},
       released w).
Proof. intros Htr Hgeo. unfold_op. by rewrite Htr, Hgeo. Qed.

(** X3. When the trend file exists, [get_filter_options] returns normally:
    its years are the years that occur in the trend file, ascending and
    without repetition; its regions are those of the geography file, in
    ascending text order and without repetition, or none when that file is
    missing. *)
Theorem get_filter_options_lists w (trends : list Trend.row) :
  pit_trends (files w) = Some trends →
  ∃ ys rs,
    get_filter_options w
      = (Ok {| years := ys; regions := rs |}, released w)
    ∧ StronglySorted Z.le ys ∧ NoDup ys
    ∧ (∀ y, y ∈ ys ↔ ∃ r, r ∈ trends ∧ Trend.year r = Some y)
    ∧ match pit_geography (files w) with
      | None => rs = []
      | Some geography =>
          StronglySorted String.le rs ∧ NoDup rs
          ∧ ∀ g, g ∈ rs ↔ ∃ r, r ∈ geography ∧ Geo.region r = Some g
      end.
Proof.
  intros Htr. unfold_op. rewrite Htr.
  destruct (sorted_distinct (omap Trend.year trends)) as (Hs & Hn & Hm).
  destruct (pit_geography (files w)) as [geography|]; simpl;
    do 2 eexists; (split; [done|]); (split; [exact Hs|]);
    (split; [exact Hn|]);
    (split; [intros y; by rewrite Hm, list_elem_of_omap|]); [|done].
  split; [|split].
  - apply StronglySorted_merge_sort; apply _.
  - rewrite merge_sort_Permutation. apply NoDup_remove_dups.
  - intros g.
    by rewrite merge_sort_Permutation, elem_of_remove_dups,
      list_elem_of_omap.
Qed.

(** ** Overview *)

Lemma trend_record_elem (rows : list Trend.row) y r :
  trend_record rows y = Some r → r ∈ rows.
Proof.
  unfold trend_record. intros Hhead.
  assert (Hin : r ∈ filter (λ r, Is_true (sql_eq (Trend.year r) y)) rows).
  { destruct (filter _ rows) as [|r' l]; [done|].
    injection Hhead as ->. apply list_elem_of_here. }
  by apply list_elem_of_filter in Hin as [_ ?].
Qed.

(** With no year given, [get_overview] works on the largest year of the
    trend file. *)
Lemma get_overview_default_year w (trends : list Trend.row) m :
  pit_trends (files w) = Some trends →
  sql_max (map Trend.year trends) = Some m →
  get_overview None w = get_overview (Some m) w.
Proof.
  intros Htr Hmax. unfold_op. rewrite Htr. simpl. rewrite Hmax. simpl.
  by rewrite Htr.
Qed.

(** X4. On a trend file with INTEGER columns, for a year of the INTEGER
    range or no year: a record that [get_overview] returns has its three
    comparison fields all null, or all set from a prior total that is not
    zero: the change is the total minus the prior total and the percentage
    is the rounded quotient of two 32-bit totals of the file. *)
Theorem get_overview_comparison_consistent w (trends : list Trend.row)
    year r :
  pit_trends (files w) = Some trends →
  Forall INTEGER_columns trends →
  (∀ y, year = Some y → INTEGER y) →
  fst (get_overview year w) = Ok r →
  (Overview.prior_year_total r = None
   ∧ Overview.yoy_change r = None
   ∧ Overview.yoy_pct r = None)
  ∨ ∃ p, p ≠ 0
         ∧ INTEGER p ∧ INTEGER (Overview.total r)
         ∧ Overview.prior_year_total r = Some p
         ∧ Overview.yoy_change r = Some (Overview.total r - p)
         ∧ Overview.yoy_pct r = Some (pct_change (Overview.total r) p).
Proof.
  intros Htr Hcols _ Hrun. rewrite Forall_forall in Hcols.
  assert (Hy : ∃ y, fst (get_overview (Some y) w) = Ok r).
  { destruct year as [y|]; [by exists y|].
    destruct (sql_max (map Trend.year trends)) as [m|] eqn:Hmax.
    - exists m. by rewrite <-(get_overview_default_year w trends m).
    - revert Hrun. unfold_op. rewrite Htr. simpl. by rewrite Hmax. }
  destruct Hy as [y Hy]. clear Hrun.
  rewrite (get_overview_explicit w trends y Htr) in Hy.
  destruct (trend_record trends y) as [cur|] eqn:Hcur.
  - apply trend_record_elem, Hcols in Hcur as (_ & HT & _).
    revert Hy. unfold bind, lift, ret, py_int.
    destruct (Trend.total cur) as [T|]; simpl; [|done].
    destruct (Trend.sheltered cur) as [s|]; simpl; [|done].
    destruct (Trend.unsheltered cur) as [u|]; simpl; [|done].
    destruct (trend_record trends (y - 1)) as [prior|] eqn:Hprior.
    + apply trend_record_elem, Hcols in Hprior as (_ & HTp & _).
      destruct (Trend.total prior) as [Tp|]; simpl; [|done].
      unfold py_truediv. destruct (Z.eqb_spec Tp 0) as [|Hnz]; simpl;
        [done|].
      intros [= <-]. right. exists Tp. simpl.
      split; [done|]. split; [by apply HTp|]. split; [by apply HT|]. done.
    + simpl. intros [= <-]. by left.
  - revert Hy. unfold ret. simpl. intros [= <-]. by left.
Qed.

Lemma sql_max_None (keys : list (option Z)) :
  sql_max keys = None ↔ Forall (λ k, k = None) keys.
Proof.
  induction keys as [|[a|] keys IH]; simpl.
  - split; [by constructor | done].
  - split; [by destruct (sql_max keys) | by inversion 1].
  - rewrite IH. split; [by constructor | by inversion 1].
Qed.

(** X5. With no year given, when some record of the trend file has a year,
    [get_overview] is the overview of the largest year of the file, and a
    record for that year exists. *)
Theorem get_overview_latest_year w (trends : list Trend.row) r0 y0 :
  pit_trends (files w) = Some trends →
  r0 ∈ trends → Trend.year r0 = Some y0 →
  ∃ m,
    (∃ r, r ∈ trends ∧ Trend.year r = Some m)
    ∧ (∀ r y, r ∈ trends → Trend.year r = Some y → y ≤ m)
    ∧ get_overview None w = get_overview (Some m) w
    ∧ is_Some (trend_record trends m).
Proof.
  intros Htr Hin Hy0.
  destruct (sql_max (map Trend.year trends)) as [m|] eqn:Hmax.
  - destruct (sql_max_spec _ _ Hmax) as [Hm Hle]. exists m.
    apply list_elem_of_fmap in Hm as (rm & Hrm & Hinm).
    split; [by exists rm|]. split.
    + intros r y Hr Hy. apply Hle. rewrite <-Hy.
      by apply list_elem_of_fmap_2.
    + split.
      * unfold_op. rewrite Htr. simpl. rewrite Hmax. simpl.
        by rewrite Htr.
      * unfold trend_record. apply head_is_Some. intros Hnil.
        assert (Hf : rm ∈ filter (λ r, Is_true (sql_eq (Trend.year r) m))
                            trends).
        { apply list_elem_of_filter. split; [|done].
          unfold sql_eq. rewrite <-Hrm. apply Is_true_true, Z.eqb_refl. }
        rewrite Hnil in Hf. by apply elem_of_nil in Hf.
  - apply sql_max_None in Hmax. rewrite Forall_forall in Hmax.
    assert (Trend.year r0 = None)
      by (apply Hmax; by apply list_elem_of_fmap_2).
    congruence.
Qed.

(** X6. With no year given, a trend file in which no record has a year
    (an empty file among them) makes [get_overview] raise [TypeError], and
    likewise a geography file makes [get_geography] raise it; either call
    leaves its connection open. *)
Theorem default_year_of_yearless_file w region :
  (∀ trends, pit_trends (files w) = Some trends →
             Forall (λ r, Trend.year r = None) trends →
             get_overview None w = (Raise TypeError, leaked w))
  ∧ (∀ geography, pit_geography (files w) = Some geography →
                  Forall (λ r, Geo.year r = None) geography →
                  get_geography None region w = (Raise TypeError, leaked w)).
Proof.
  split.
  - intros trends Htr Hnone.
    assert (Hmax : sql_max (map Trend.year trends) = None).
    { apply sql_max_None, Forall_fmap. by eapply Forall_impl. }
    unfold_op. rewrite Htr. simpl. by rewrite Hmax.
  - intros geography Hgeo Hnone.
    assert (Hmax : sql_max (map Geo.year geography) = None).
    { apply sql_max_None, Forall_fmap. by eapply Forall_impl. }
    unfold_op. rewrite Hgeo. simpl. by rewrite Hmax.
Qed.

(** ** Geography *)

(** X7. When the geography file exists, [get_geography] for a given year
    of the INTEGER range returns normally with exactly the records (each
    as often as the file has it) of that year and, when a non-empty region
    is given, of that region, by descending total with unknown totals
    last; the empty string is no region filter. *)
Theorem get_geography_of_year w (geography : list Geo.row) y region :
  pit_geography (files w) = Some geography →
  INTEGER y →
  ∃ out,
    get_geography (Some y) region w = (Ok out, released w)
    ∧ out ≡ₚ filter (λ r, Is_true (geography_filter y (truthy region) r))
               geography
    ∧ (∀ r, Is_true (geography_filter y (truthy region) r) ↔
            Geo.year r = Some y
            ∧ ∀ g, region = Some g → g ≠ "" → Geo.region r = Some g)
    ∧ (∀ r, r ∈ out ↔
            r ∈ geography ∧ Geo.year r = Some y
            ∧ ∀ g, region = Some g → g ≠ "" → Geo.region r = Some g)
    ∧ StronglySorted
        (rel_of (λ r1 r2, desc_leb (Geo.total r1) (Geo.total r2))) out
    ∧ get_geography (Some y) (Some "") w = get_geography (Some y) None w.
Proof.
  intros Hgeo _.
  destruct (get_geography_for_year w geography y region Hgeo)
    as (out & Hout & Hperm & Hsorted).
  assert (Hspec : ∀ r : Geo.row,
    Is_true (geography_filter y (truthy region) r)
    ↔ Geo.year r = Some y
      ∧ ∀ g, region = Some g → g ≠ "" → Geo.region r = Some g).
  { intros r. unfold geography_filter. rewrite andb_True.
    unfold sql_eq, sql_text_eq. split.
    - intros [Hy Hg]. split.
      + destruct (Geo.year r) as [a|]; [|done].
        apply Is_true_true, Z.eqb_eq in Hy. by subst.
      + intros g Hregion Hne.
        assert (Ht : truthy region = Some g) by (apply truthy_spec; by split).
        rewrite Ht in Hg. destruct (Geo.region r) as [b|]; [|done].
        apply bool_decide_spec in Hg. by subst.
    - intros [Hy Hg]. split.
      + rewrite Hy. apply Is_true_true, Z.eqb_refl.
      + destruct (truthy region) as [g|] eqn:Ht; [|done].
        apply truthy_spec in Ht as [Hregion Hne].
        rewrite (Hg g Hregion Hne). by apply bool_decide_spec. }
  exists out. split; [done|]. split; [done|]. split; [exact Hspec|].
  split; [|split; [done|done]].
  intros r. rewrite Hperm, list_elem_of_filter, Hspec. tauto.
Qed.

(** X8. With no year given, when some record of the geography file has a
    year, [get_geography] is the query for the largest year of the file. *)
Theorem get_geography_latest_year w (geography : list Geo.row) region r0 y0 :
  pit_geography (files w) = Some geography →
  r0 ∈ geography → Geo.year r0 = Some y0 →
  ∃ m,
    (∃ r, r ∈ geography ∧ Geo.year r = Some m)
    ∧ (∀ r y, r ∈ geography → Geo.year r = Some y → y ≤ m)
    ∧ get_geography None region w = get_geography (Some m) region w.
Proof.
  intros Hgeo Hin Hy0.
  destruct (sql_max (map Geo.year geography)) as [m|] eqn:Hmax.
  - destruct (sql_max_spec _ _ Hmax) as [Hm Hle]. exists m.
    apply list_elem_of_fmap in Hm as (rm & Hrm & Hinm).
    split; [by exists rm|]. split.
    + intros r y Hr Hy. apply Hle. rewrite <-Hy.
      by apply list_elem_of_fmap_2.
    + by apply (get_geography_default_year w geography).
  - apply sql_max_None in Hmax. rewrite Forall_forall in Hmax.
    assert (Geo.year r0 = None)
      by (apply Hmax; by apply list_elem_of_fmap_2).
    congruence.
Qed.

End QueryRanges.

(** * Further properties of the aggregation builder *)

Section BuilderRuns.
Context {cell amount : Type} `{!Engine cell amount}.
Implicit Types (s : state cell amount) (t : table cell).

(** ** How a run ends *)

Lemma select_pit_geography_raises t e :
  select_pit_geography t = Raise e → e = BinderException.
Proof.
  unfold select_pit_geography. by destruct (bound _ t); intros [= <-].
Qed.

(** The trend statement binds whenever the processed statement does: its
    columns are among those. *)
Lemma select_pit_trends_binds t p :
  select_processed t = Ok p → ∃ tr, select_pit_trends t = Ok tr.
Proof.
  unfold select_processed, select_pit_trends, bound. simpl.
  repeat (destruct (bool_decide _); simpl; try done); eauto.
Qed.

Lemma run_result_cases s :
  run_result s = Ok tt ∨ run_result s = Raise BinderException.
Proof.
  unfold run_result.
  destruct (select_processed _) eqn:H1;
    [|right; by rewrite (select_processed_raises _ _ H1)].
  destruct (select_pit_trends _) eqn:H2;
    [|right; by rewrite (select_pit_trends_raises _ _ H2)].
  destruct (select_pit_subpopulations _) eqn:H3;
    [|right; by rewrite (select_pit_subpopulations_raises _ _ H3)].
  destruct (select_pit_geography _) eqn:H4;
    [by left|right; by rewrite (select_pit_geography_raises _ _ H4)].
Qed.

(** X9. A run of the builder ends normally exactly when the columns its
    statements reference are columns of the three loaded tables; for that
    all three raw files must exist.  Otherwise it ends with DuckDB's binder
    error, never with another exception, whatever tables the database held
    before. *)
Theorem transform_succeeds_iff_columns_bind s :
  ((transform s).1 = Ok tt ↔
   bound ["year"; "total_homeless"; "sheltered"; "unsheltered";
          "chronically_homeless"; "veterans"; "families_persons";
          "youth_under25"; "first_time_homeless"]
     (table_for s "pit_counts.csv") = true
   ∧ bound ["year"; "group_name"; "count"]
       (table_for s "pit_subpopulations.csv") = true
   ∧ bound ["year"; "region"; "total"; "sheltered"; "unsheltered"]
       (table_for s "pit_geography.csv") = true)
  ∧ ((transform s).1 = Ok tt →
     ∀ name file, (name, file) ∈ csv_files → is_Some (raw_dir s !! file))
  ∧ ((transform s).1 = Ok tt ∨ (transform s).1 = Raise BinderException).
Proof.
  destruct (transform_spec s) as (Hres & _). rewrite Hres.
  assert (Hiff : run_result s = Ok tt ↔
    bound ["year"; "total_homeless"; "sheltered"; "unsheltered";
           "chronically_homeless"; "veterans"; "families_persons";
           "youth_under25"; "first_time_homeless"]
      (table_for s "pit_counts.csv") = true
    ∧ bound ["year"; "group_name"; "count"]
        (table_for s "pit_subpopulations.csv") = true
    ∧ bound ["year"; "region"; "total"; "sheltered"; "unsheltered"]
        (table_for s "pit_geography.csv") = true).
  { unfold run_result.
    destruct (select_processed _) as [p|e] eqn:H1.
    - destruct (select_pit_trends_binds _ _ H1) as [tr ->].
      unfold select_processed in H1.
      destruct (bound _ (table_for s "pit_counts.csv")); [|done].
      unfold select_pit_subpopulations, select_pit_geography.
      destruct (bound _ (table_for s "pit_subpopulations.csv"));
        [|split; [done | by intros (_ & ? & _)]].
      destruct (bound _ (table_for s "pit_geography.csv"));
        [done | split; [done | by intros (_ & _ & ?)]].
    - unfold select_processed in H1.
      destruct (bound _ (table_for s "pit_counts.csv")); [done|].
      split; [done | by intros (? & _)]. }
  split; [exact Hiff|]. split; [|apply run_result_cases].
  intros (H1 & H2 & H3)%Hiff name file Hin.
  destruct (raw_dir s !! file) as [t|] eqn:Hfile; [by eexists|].
  exfalso. pose proof (table_for_missing s file Hfile) as Hdummy.
  unfold csv_files in Hin.
  repeat (apply elem_of_cons in Hin as [[= -> ->]|Hin]);
    [| | |by apply elem_of_nil in Hin].
  - by rewrite Hdummy in H1.
  - by rewrite Hdummy in H2.
  - by rewrite Hdummy in H3.
Qed.

Lemma load_messages_not_complete s :
  transform_complete ∉ flat_map (load_message s) csv_files.
Proof.
  unfold csv_files, flat_map, load_message. simpl.
  destruct (raw_dir s !! "pit_counts.csv"),
    (raw_dir s !! "pit_subpopulations.csv"),
    (raw_dir s !! "pit_geography.csv"); simpl;
    intros H; repeat (apply elem_of_cons in H as [?|H]; [done|]);
    by apply elem_of_nil in H.
Qed.

Ltac not_complete :=
  let H := fresh in
  intros H; apply elem_of_app in H as [H|H];
  [by apply load_messages_not_complete in H|];
  repeat (apply elem_of_cons in H as [?|H]; [done|]);
  by apply elem_of_nil in H.

(** The whole state a run leaves, step by step. *)
Lemma transform_final_state s :
  db (transform s).2 = loaded_db s
  ∧ match (transform s).1 with
    | Ok _ =>
        db_connections (transform s).2 = db_connections s
        ∧ ∃ out, stdout (transform s).2
                 = stdout s ++ out ++ [transform_complete]
    | Raise _ =>
        db_connections (transform s).2 = S (db_connections s)
        ∧ ∃ out, stdout (transform s).2 = stdout s ++ out
                 ∧ transform_complete ∉ out
    end.
Proof.
  rewrite transform_after_load.
  set (L := flat_map (load_message s) csv_files).
  unfold _export_processed, _build_aggregations, _build_spending_crossref,
    read_budget, copy_spending, close_db, bind, copy_to, print, from_table,
    set_processed, set_aggregated, set_connections.
  simpl. rewrite loaded_db_counts.
  destruct (select_processed _) as [p|e]; simpl.
  2:{ split; [done|]. split; [done|]. exists (L ++ []).
      split; [by rewrite app_nil_r | not_complete]. }
  rewrite loaded_db_counts.
  destruct (select_pit_trends _) as [tr|e]; simpl.
  2:{ split; [done|]. split; [done|]. exists (L ++ [exported_processed]).
      split; [by rewrite <-!app_assoc | not_complete]. }
  rewrite loaded_db_subpopulations.
  destruct (select_pit_subpopulations _) as [sp|e]; simpl.
  2:{ split; [done|]. split; [done|].
      exists (L ++ [exported_processed; agg "pit_trends"]).
      split; [by rewrite <-!app_assoc | not_complete]. }
  rewrite loaded_db_geography.
  destruct (select_pit_geography _) as [g|e]; simpl.
  2:{ split; [done|]. split; [done|].
      exists (L ++ [exported_processed; agg "pit_trends";
                    agg "pit_subpopulations"]).
      split; [by rewrite <-!app_assoc | not_complete]. }
  destruct (budget_parquet s) as [budget|]; simpl;
    (split; [done|]); (split; [done|]).
  - exists (L ++ [exported_processed; agg "pit_trends";
                  agg "pit_subpopulations"; agg "pit_geography";
                  agg "homelessness_spending"]).
    by rewrite <-!app_assoc.
  - exists (L ++ [exported_processed; agg "pit_trends";
                  agg "pit_subpopulations"; agg "pit_geography";
                  skip_spending]).
    by rewrite <-!app_assoc.
Qed.

(** X10. A run that ends normally has closed its database connection and
    its last printed line is the completion message; a run that raises
    leaves the connection open and never prints the completion message. *)
Theorem transform_completion s :
  match (transform s).1 with
  | Ok _ =>
      db_connections (transform s).2 = db_connections s
      ∧ ∃ out, stdout (transform s).2
               = stdout s ++ out ++ [transform_complete]
  | Raise _ =>
      db_connections (transform s).2 = S (db_connections s)
      ∧ ∃ out, stdout (transform s).2 = stdout s ++ out
               ∧ transform_complete ∉ out
  end.
Proof. apply transform_final_state. Qed.

(** X11. A run, however it ends, changes no raw file and not the
    city-budget dataset, and in the database only the three raw tables:
    every other table is as it was. *)
Theorem transform_preserves_inputs s :
  raw_dir (transform s).2 = raw_dir s
  ∧ budget_parquet (transform s).2 = budget_parquet s
  ∧ ∀ name, (∀ file, (name, file) ∉ csv_files) →
            db (transform s).2 !! name = db s !! name.
Proof.
  destruct (transform_spec s) as (_ & _ & Hraw & Hbudget & _).
  destruct (transform_final_state s) as [Hdb _].
  split; [done|]. split; [done|].
  intros name Hother. rewrite Hdb. unfold loaded_db.
  rewrite !lookup_insert_ne; [done|..]; intros <-.
  - apply (Hother "pit_counts.csv"). unfold csv_files. set_solver.
  - apply (Hother "pit_subpopulations.csv"). unfold csv_files. set_solver.
  - apply (Hother "pit_geography.csv"). unfold csv_files. set_solver.
Qed.

(** ** What a run writes *)

Lemma Forall_order_by {A} (P : A → Prop) (leb : A → A → bool) (l : list A) :
  Forall P l → Forall P (order_by leb l).
Proof. intros Hl. by rewrite order_by_Permutation. Qed.

Lemma year_casts_is_Some (r : gmap string cell) :
  Is_true (year_casts r) ↔ is_Some (int_col r "year").
Proof. unfold year_casts. by rewrite bool_decide_spec. Qed.

Lemma select_pit_trends_rows t out :
  select_pit_trends t = Ok out →
  Forall (λ r, is_Some (Trend.year r)) out
  ∧ StronglySorted
      (rel_of (λ r1 r2, asc_leb (Trend.year r1) (Trend.year r2))) out.
Proof.
  unfold select_pit_trends. destruct (bound _ t); [|done]. intros [= <-].
  split.
  - apply Forall_order_by, Forall_fmap, Forall_forall.
    intros r [Hr _]%list_elem_of_filter. by apply year_casts_is_Some.
  - apply order_by_sorted; [apply asc_key_transitive | apply asc_key_total].
Qed.

Lemma select_pit_subpopulations_rows t out :
  select_pit_subpopulations t = Ok out →
  Forall (λ r, is_Some (Subpop.year r) ∧ is_Some (Subpop.count r)) out
  ∧ StronglySorted
      (rel_of (lex_leb
                 (λ r1 r2, asc_ltb (Subpop.year r1) (Subpop.year r2))
                 (λ r1 r2, asc_leb (Subpop.year r1) (Subpop.year r2))
                 (λ r1 r2, text_leb (Subpop.group_name r1)
                                    (Subpop.group_name r2)))) out.
Proof.
  unfold select_pit_subpopulations. destruct (bound _ t); [|done].
  intros [= <-]. split.
  - apply Forall_order_by, Forall_fmap, Forall_forall.
    intros r [Hr _]%list_elem_of_filter. unfold year_and_count_cast in Hr.
    apply andb_True in Hr as [Hy Hc]. split.
    + by apply year_casts_is_Some.
    + by apply bool_decide_spec in Hc.
  - apply order_by_sorted; [apply lex_key_transitive | apply lex_key_total].
Qed.

Lemma select_pit_geography_rows t out :
  select_pit_geography t = Ok out →
  Forall (λ r, is_Some (Geo.year r)) out
  ∧ StronglySorted
      (rel_of (lex_leb
                 (λ r1 r2, asc_ltb (Geo.year r1) (Geo.year r2))
                 (λ r1 r2, asc_leb (Geo.year r1) (Geo.year r2))
                 (λ r1 r2, text_leb (Geo.region r1) (Geo.region r2)))) out.
Proof.
  unfold select_pit_geography. destruct (bound _ t); [|done].
  intros [= <-]. split.
  - apply Forall_order_by, Forall_fmap, Forall_forall.
    intros r [Hr _]%list_elem_of_filter. by apply year_casts_is_Some.
  - apply order_by_sorted; [apply lex_key_transitive | apply lex_key_total].
Qed.

(** The files of a run that ended normally are the results of its four
    statements. *)
Lemma transform_written s :
  (transform s).1 = Ok tt →
  ∃ p tr sp g,
    select_processed (table_for s "pit_counts.csv") = Ok p
    ∧ select_pit_trends (table_for s "pit_counts.csv") = Ok tr
    ∧ select_pit_subpopulations (table_for s "pit_subpopulations.csv") = Ok sp
    ∧ select_pit_geography (table_for s "pit_geography.csv") = Ok g
    ∧ processed_dir (transform s).2 = Some p
    ∧ pit_trends (aggregated_dir (transform s).2) = Some tr
    ∧ pit_subpopulations (aggregated_dir (transform s).2) = Some sp
    ∧ pit_geography (aggregated_dir (transform s).2) = Some g
    ∧ homelessness_spending (aggregated_dir (transform s).2)
      = match budget_parquet s with
        | Some budget => Some (select_spending budget)
        | None => homelessness_spending (aggregated_dir s)
        end.
Proof.
  destruct (transform_spec s) as (Hres & Hfiles & _). rewrite Hres.
  assert (Hp : processed_dir (transform s).2 = (files_after_run s).1)
    by by rewrite <-Hfiles.
  assert (Ha : aggregated_dir (transform s).2 = (files_after_run s).2)
    by by rewrite <-Hfiles.
  rewrite Hp, Ha. unfold run_result, files_after_run.
  destruct (select_processed _) as [p|]; [|done].
  destruct (select_pit_trends _) as [tr|]; [|done].
  destruct (select_pit_subpopulations _) as [sp|]; [|done].
  destruct (select_pit_geography _) as [g|]; [|done].
  intros _. exists p, tr, sp, g.
  by destruct (budget_parquet s).
Qed.

(** X12. After a run that ended normally, every record of the trend file
    and of the geography file has a year, every record of the subgroup
    file has a year and a count, and each file is in its order: trends by
    year, subgroups by year and group name, geography by year and
    region. *)
Theorem transform_writes_ordered_datasets s :
  (transform s).1 = Ok tt →
  ∃ tr sp g,
    pit_trends (aggregated_dir (transform s).2) = Some tr
    ∧ pit_subpopulations (aggregated_dir (transform s).2) = Some sp
    ∧ pit_geography (aggregated_dir (transform s).2) = Some g
    ∧ Forall (λ r, is_Some (Trend.year r)) tr
    ∧ StronglySorted
        (rel_of (λ r1 r2, asc_leb (Trend.year r1) (Trend.year r2))) tr
    ∧ Forall (λ r, is_Some (Subpop.year r) ∧ is_Some (Subpop.count r)) sp
    ∧ StronglySorted
        (rel_of (lex_leb
                   (λ r1 r2, asc_ltb (Subpop.year r1) (Subpop.year r2))
                   (λ r1 r2, asc_leb (Subpop.year r1) (Subpop.year r2))
                   (λ r1 r2, text_leb (Subpop.group_name r1)
                                      (Subpop.group_name r2)))) sp
    ∧ Forall (λ r, is_Some (Geo.year r)) g
    ∧ StronglySorted
        (rel_of (lex_leb
                   (λ r1 r2, asc_ltb (Geo.year r1) (Geo.year r2))
                   (λ r1 r2, asc_leb (Geo.year r1) (Geo.year r2))
                   (λ r1 r2, text_leb (Geo.region r1) (Geo.region r2)))) g.
Proof.
  intros Hok.
  destruct (transform_written s Hok)
    as (p & tr & sp & g & _ & Htr & Hsp & Hg & _ & Wtr & Wsp & Wg & _).
  exists tr, sp, g.
  destruct (select_pit_trends_rows _ _ Htr).
  destruct (select_pit_subpopulations_rows _ _ Hsp).
  destruct (select_pit_geography_rows _ _ Hg).
  done.
Qed.

(** ** Spending by fiscal year *)

Lemma select_spending_rows (budget : list (Budget.row amount)) :
  NoDup (map Spending.fiscal_year (select_spending budget))
  ∧ StronglySorted
      (rel_of (λ r1 r2, asc_leb (Spending.fiscal_year r1)
                                (Spending.fiscal_year r2)))
      (select_spending budget)
  ∧ (∀ fy, fy ∈ map Spending.fiscal_year (select_spending budget) ↔
           ∃ b, b ∈ budget ∧ Is_true (is_homelessness_expense b)
                ∧ Budget.fiscal_year b = fy)
  ∧ ∀ row, row ∈ select_spending budget →
      Spending.amount row
      = sum_group
          (filter (λ b, Budget.fiscal_year b = Spending.fiscal_year row)
             (filter (λ b, Is_true (is_homelessness_expense b)) budget)).
Proof.
  unfold select_spending.
  set (matching := filter (λ b, Is_true (is_homelessness_expense b)) budget).
  set (groups := remove_dups (map Budget.fiscal_year matching)).
  set (mk := λ fy, {| Spending.fiscal_year := fy;
                      Spending.amount :=
                        sum_group (filter (λ b, Budget.fiscal_year b = fy)
                                     matching) |}).
  assert (Hkeys : map Spending.fiscal_year (map mk groups) = groups).
  { rewrite map_map. simpl. apply map_id. }
  split; [|split; [|split]].
  - rewrite order_by_Permutation, Hkeys. apply NoDup_remove_dups.
  - apply order_by_sorted; [apply asc_key_transitive | apply asc_key_total].
  - intros fy. rewrite order_by_Permutation, Hkeys. unfold groups.
    rewrite elem_of_remove_dups, list_elem_of_fmap. unfold matching. split.
    + intros (b & -> & [Hb Hin]%list_elem_of_filter). by exists b.
    + intros (b & Hin & Hb & <-). exists b. split; [done|].
      by apply list_elem_of_filter.
  - intros row. rewrite order_by_Permutation.
    by intros (fy & -> & _)%list_elem_of_fmap.
Qed.

(** X13. After a run that ended normally with the city-budget dataset
    present, the spending file has exactly one record for each fiscal year
    of the budget rows of the homelessness department (adopted cycle,
    expense, budget source), by ascending fiscal year, and the amount of a
    record is the sum over the rows of its year. *)
Theorem spending_one_row_per_fiscal_year s budget :
  (transform s).1 = Ok tt →
  budget_parquet s = Some budget →
  ∃ out,
    homelessness_spending (aggregated_dir (transform s).2) = Some out
    ∧ NoDup (map Spending.fiscal_year out)
    ∧ StronglySorted
        (rel_of (λ r1 r2, asc_leb (Spending.fiscal_year r1)
                                  (Spending.fiscal_year r2))) out
    ∧ (∀ fy, fy ∈ map Spending.fiscal_year out ↔
             ∃ b, b ∈ budget ∧ Is_true (is_homelessness_expense b)
                  ∧ Budget.fiscal_year b = fy)
    ∧ ∀ row, row ∈ out →
        Spending.amount row
        = sum_group
            (filter (λ b, Budget.fiscal_year b = Spending.fiscal_year row)
               (filter (λ b, Is_true (is_homelessness_expense b)) budget)).
Proof.
  intros Hok Hbudget.
  destruct (transform_written s Hok) as (p & tr & sp & g & H).
  destruct H as (_ & _ & _ & _ & _ & _ & _ & _ & Hspend).
  rewrite Hbudget in Hspend. exists (select_spending budget).
  split; [done|]. apply select_spending_rows.
Qed.

(** ** From the raw tables to the answers of the query layer *)

(** X14. On the files of a run that ended normally, [get_filter_options]
    returns normally: its years are exactly the years that cast in the
    rows of the raw count table, and its regions are the regions of the
    rows of the raw geography table whose year casts. *)
Theorem filter_options_after_run s (w : world amount) :
  (transform s).1 = Ok tt →
  files w = aggregated_dir (transform s).2 →
  ∃ ys rs,
    get_filter_options w
      = (Ok {| years := ys; regions := rs |}, released w)
    ∧ (∀ y, y ∈ ys ↔
            ∃ r, r ∈ rows (table_for s "pit_counts.csv")
                 ∧ int_col r "year" = Some y)
    ∧ (∀ g, g ∈ rs ↔
            ∃ r, r ∈ rows (table_for s "pit_geography.csv")
                 ∧ is_Some (int_col r "year")
                 ∧ text_col r "region" = Some g).
Proof.
  intros Hok Hw.
  destruct (transform_written s Hok)
    as (p & tr & sp & g & _ & Htr & _ & Hg & _ & Wtr & _ & Wg & _).
  rewrite <-Hw in Wtr, Wg.
  rewrite (get_filter_options_present w tr g Wtr Wg).
  do 2 eexists. split; [done|].
  destruct (sorted_distinct (omap Trend.year tr)) as (_ & _ & Hm).
  unfold select_pit_trends in Htr. destruct (bound _ _); [|done].
  injection Htr as <-.
  unfold select_pit_geography in Hg. destruct (bound _ _); [|done].
  injection Hg as <-.
  split.
  - intros y. rewrite Hm, list_elem_of_omap. split.
    + intros (row & Hin & Hy). rewrite order_by_Permutation in Hin.
      apply list_elem_of_fmap in Hin as (r & -> & [_ Hr]%list_elem_of_filter).
      by exists r.
    + intros (r & Hr & Hy). exists (trend_of r). split; [|done].
      rewrite order_by_Permutation. apply list_elem_of_fmap_2.
      apply list_elem_of_filter. split; [|done].
      apply year_casts_is_Some. by rewrite Hy.
  - intros name.
    rewrite merge_sort_Permutation, elem_of_remove_dups, list_elem_of_omap.
    split.
    + intros (row & Hin & Hname). rewrite order_by_Permutation in Hin.
      apply list_elem_of_fmap in Hin as (r & -> & [Hy Hr]%list_elem_of_filter).
      exists r. split; [done|]. split; [|done].
      by apply year_casts_is_Some.
    + intros (r & Hr & Hy & Hname). exists (geo_of r). split; [|done].
      rewrite order_by_Permutation. apply list_elem_of_fmap_2.
      apply list_elem_of_filter. split; [|done].
      by apply year_casts_is_Some.
Qed.

(** X15. After a run that ended normally with the city-budget dataset
    present, [get_spending_trends] on the files of the run, with bounds of
    the INTEGER range, returns normally, with one record for each fiscal
    year of the range in which
    the homelessness department has a matching budget row; the amount of
    the record is the sum over those rows.  Budget rows without a fiscal
    year reach no answer. *)
Theorem spending_trends_after_run s (w : world amount) budget lo hi :
  (transform s).1 = Ok tt →
  budget_parquet s = Some budget →
  files w = aggregated_dir (transform s).2 →
  INTEGER lo → INTEGER hi →
  ∃ out,
    get_spending_trends lo hi w = (Ok out, released w)
    ∧ NoDup (map Spending.fiscal_year out)
    ∧ ∀ row, row ∈ out ↔
        ∃ fy, lo ≤ fy ≤ hi
          ∧ (∃ b, b ∈ budget ∧ Is_true (is_homelessness_expense b)
                  ∧ Budget.fiscal_year b = Some fy)
          ∧ row = {| Spending.fiscal_year := Some fy;
                     Spending.amount :=
                       sum_group
                         (filter (λ b, Budget.fiscal_year b = Some fy)
                            (filter (λ b, Is_true (is_homelessness_expense b))
                               budget)) |}.
Proof.
  intros Hok Hbudget Hw _ _.
  destruct (transform_written s Hok) as (p & tr & sp & g & H).
  destruct H as (_ & _ & _ & _ & _ & _ & _ & _ & Hspend).
  rewrite Hbudget, <-Hw in Hspend.
  destruct (get_spending_trends_in_range w _ lo hi Hspend)
    as (out & Hrun & Hperm & Hin & _).
  destruct (select_spending_rows budget) as (Hnodup & _ & Hkeys & Hamount).
  exists out. split; [done|]. split.
  - rewrite Hperm. eapply sublist_NoDup; [exact Hnodup|].
    apply fmap_sublist, sublist_filter.
  - intros row. rewrite Hin. split.
    + intros (Hrow & fy & Hfy & Hrange). exists fy. split; [done|]. split.
      * apply Hkeys. rewrite <-Hfy. apply list_elem_of_fmap. by exists row.
      * pose proof (Hamount row Hrow) as Ha. rewrite Hfy in Ha.
        destruct row as [fy' a]. simpl in *. by subst.
    + intros (fy & Hrange & Hb & ->).
      apply Hkeys in Hb. apply list_elem_of_fmap in Hb as (row & Hfy & Hrow).
      pose proof (Hamount row Hrow) as Ha. rewrite <-Hfy in Ha.
      assert (Heq : row = {| Spending.fiscal_year := Some fy;
                             Spending.amount :=
                               sum_group
                                 (filter (λ b, Budget.fiscal_year b = Some fy)
                                    (filter
                                       (λ b, Is_true
                                               (is_homelessness_expense b))
                                       budget)) |}).
      { destruct row as [fy' a]. simpl in *. by subst. }
      rewrite <-Heq. split; [done|]. exists fy. by rewrite <-Hfy.
Qed.

(** ** The processed file *)

(** X16. A row of the raw count table whose year does not cast leaves no
    trace in the processed file; a row whose year casts is kept there with
    each of its eight counts cast, NULL where the cast fails. *)
Theorem processed_row_cast_policy cols (l1 l2 : list (gmap string cell))
    (r : gmap string cell) :
  let t := {| columns := cols; rows := l1 ++ r :: l2 |} in
  let t' := {| columns := cols; rows := l1 ++ l2 |} in
  bound ["year"; "total_homeless"; "sheltered"; "unsheltered";
         "chronically_homeless"; "veterans"; "families_persons";
         "youth_under25"; "first_time_homeless"] t = true →
  ∃ out out',
    select_processed t = Ok out
    ∧ select_processed t' = Ok out'
    ∧ match int_col r "year" with
      | None => out ≡ₚ out'
      | Some y =>
          out ≡ₚ
            {| Processed.year := Some y;
               Processed.total_homeless := int_col r "total_homeless";
               Processed.sheltered := int_col r "sheltered";
               Processed.unsheltered := int_col r "unsheltered";
               Processed.chronically_homeless :=
                 int_col r "chronically_homeless";
               Processed.veterans := int_col r "veterans";
               Processed.families_persons := int_col r "families_persons";
               Processed.youth_under25 := int_col r "youth_under25";
               Processed.first_time_homeless :=
                 int_col r "first_time_homeless" |} :: out'
      end.
Proof.
  intros t t' Hbound. unfold select_processed.
  rewrite (Hbound : bound _ t' = true), Hbound. do 2 eexists.
  split; [done|]. split; [done|]. unfold t, t'. simpl.
  pose proof (order_by_map_filter_middle
                (λ r1 r2, asc_leb (Processed.year r1) (Processed.year r2))
                processed_of year_casts l1 l2 r) as Hmid.
  destruct (int_col r "year") as [y|] eqn:Hy.
  - rewrite (year_casts_Some r y Hy) in Hmid. rewrite Hmid. simpl.
    unfold processed_of. by rewrite Hy.
  - rewrite (year_casts_None r Hy) in Hmid. by rewrite Hmid.
Qed.

End BuilderRuns.

(** * Properties of the verification of raw data *)

(** The loop prints one line for each name and appends the usable names,
    in order; it changes nothing else. *)
Lemma verify_each_spec (names paths : list string) (d : disk) :
  ∃ lines,
    verify_each names paths d
      = (Ok (paths ++ filter (λ n, Is_true (usable d n)) names),
         {| RAW_DIR := RAW_DIR d; BUDGET_PARQUET := BUDGET_PARQUET d;
            printed := printed d ++ lines |})
    ∧ length lines = length names.
Proof.
  revert paths d. induction names as [|name names IH]; intros paths d.
  - exists []. simpl. unfold ret. rewrite !app_nil_r. by destruct d.
  - simpl. unfold bind at 1. unfold stat_raw at 1. rewrite filter_cons.
    assert (Hsame : ∀ (l : list string) (d' : disk),
      RAW_DIR d' = RAW_DIR d →
      filter (λ n, Is_true (usable d' n)) l
      = filter (λ n, Is_true (usable d n)) l).
    { intros l d' Hd'. apply list_filter_iff. intros x.
      unfold usable, raw_files. by rewrite Hd'. }
    destruct (decide (Is_true (usable d name))) as [Hu|Hu];
      unfold usable in Hu;
      destruct (raw_files d !! name) as [n|]; simpl in Hu |- *;
      try done.
    + rewrite (Is_true_true_1 _ Hu). unfold bind, say; simpl.
      destruct (IH (paths ++ [name])
                  {| RAW_DIR := RAW_DIR d;
                     BUDGET_PARQUET := BUDGET_PARQUET d;
                     printed := printed d ++ [ok_csv name n] |})
        as (lines & -> & Hlen).
      exists (ok_csv name n :: lines). simpl.
      rewrite <-!app_assoc. simpl. split; [|by rewrite Hlen].
      by rewrite Hsame.
    + apply Is_true_false_1 in Hu. rewrite Hu. unfold bind, say; simpl.
      destruct (IH paths
                  {| RAW_DIR := RAW_DIR d;
                     BUDGET_PARQUET := BUDGET_PARQUET d;
                     printed := printed d ++ [missing_csv name] |})
        as (lines & -> & Hlen).
      exists (missing_csv name :: lines). simpl.
      rewrite <-!app_assoc. simpl. split; [|by rewrite Hlen].
      by rewrite Hsame.
    + unfold bind, say; simpl.
      destruct (IH paths
                  {| RAW_DIR := RAW_DIR d;
                     BUDGET_PARQUET := BUDGET_PARQUET d;
                     printed := printed d ++ [missing_csv name] |})
        as (lines & -> & Hlen).
      exists (missing_csv name :: lines). simpl.
      rewrite <-!app_assoc. simpl. split; [|by rewrite Hlen].
      by rewrite Hsame.
Qed.

(** X17. When [data/raw] is not a regular file, [ingest] returns normally,
    whatever its [force] flag and whether or not the city-budget file
    exists: it returns the expected raw files that exist and are not
    empty, in the order of [EXPECTED_CSVS], prints one line for each
    expected file and one for the budget file, leaves [data/raw] a
    directory with the files it had, and changes no file.  When
    [data/raw] is a regular file, [ingest] raises [FileExistsError] before
    it prints anything. *)
Theorem ingest_returns_usable_files (force : bool) (d : disk) :
  (RAW_DIR d ≠ regular_file →
   ∃ lines,
     ingest force d
       = (Ok (filter (λ n, Is_true (usable d n)) EXPECTED_CSVS),
          {| RAW_DIR := directory (raw_files d);
             BUDGET_PARQUET := BUDGET_PARQUET d;
             printed := printed d ++ lines |})
     ∧ length lines = 4%nat)
  ∧ (RAW_DIR d = regular_file →
     ingest force d = (Raise FileExistsError, d)).
Proof.
  split.
  - intros Hnode.
    set (d1 := {| RAW_DIR := directory (raw_files d);
                  BUDGET_PARQUET := BUDGET_PARQUET d;
                  printed := printed d |}).
    assert (Hmk : mkdir_raw d = (Ok tt, d1)).
    { unfold mkdir_raw, d1, raw_files.
      destruct d as [[| |sizes] b p]; simpl in *; done. }
    assert (Hmk1 : mkdir_raw d1 = (Ok tt, d1)) by done.
    destruct (verify_each_spec EXPECTED_CSVS [] d1)
      as (lines & Hrun & Hlen).
    assert (Hsame :
      filter (λ n, Is_true (usable d1 n)) EXPECTED_CSVS
      = filter (λ n, Is_true (usable d n)) EXPECTED_CSVS).
    { apply list_filter_iff. intros x. by unfold usable, d1, raw_files. }
    rewrite Hsame in Hrun.
    unfold ingest, verify_raw_data, bind. rewrite Hmk, Hmk1, Hrun.
    unfold check_budget_crossref; simpl.
    destruct (BUDGET_PARQUET d) as [size|] eqn:Hb;
      unfold bind, say, ret; simpl.
    + exists (lines ++ [ok_budget size]).
      rewrite <-app_assoc, length_app, Hlen. done.
    + exists (lines ++ [warn_budget]).
      rewrite <-app_assoc, length_app, Hlen. done.
  - intros Hnode. unfold ingest, bind, mkdir_raw. by rewrite Hnode.
Qed.

(** On a disk with a full count file, an empty subgroup file and no
    geography file, only the count file is returned. *)
Example ingest_partial_disk :
  ingest false partial_disk
  = (Ok ["pit_counts.csv"],
     {| RAW_DIR := RAW_DIR partial_disk;
        BUDGET_PARQUET := None;
        printed := [ok_csv "pit_counts.csv" 2048;
                    missing_csv "pit_subpopulations.csv";
                    missing_csv "pit_geography.csv";
                    warn_budget] |}).
Proof. vm_compute. reflexivity. Qed.

(** * The further properties on concrete inputs *)

Lemma get_pit_trends_in_range_witness :
  ∃ out,
    get_pit_trends 2024 2030 (serving without_spending)
      = (Ok out, released (serving without_spending))
    ∧ (∀ r, r ∈ out ↔
            r ∈ trends_2023_2024
            ∧ ∃ y, Trend.year r = Some y ∧ 2024 ≤ y ≤ 2030).
Proof.
  destruct (get_pit_trends_in_range (serving without_spending)
              trends_2023_2024 2024 2030)
    as (out & Hrun & _ & Hin & _);
    [reflexivity | unfold INTEGER; lia | unfold INTEGER; lia |].
  exists out. split; [exact Hrun | exact Hin].
Defined.

Lemma get_subpopulations_filtered_witness :
  ∃ out,
    get_subpopulations 2011 2024 (Some "Veterans")
        (serving with_subpopulations)
      = (Ok out, released (serving with_subpopulations))
    ∧ out ≡ₚ filter (λ r, Is_true (subpopulation_filter 2011 2024
                                     (Some "Veterans") r))
               subpopulations_2024
    ∧ ∀ r, r ∈ out ↔
           r ∈ subpopulations_2024
           ∧ (∃ y, Subpop.year r = Some y ∧ 2011 ≤ y ≤ 2024)
           ∧ ∀ g, Some "Veterans" = Some g → g ≠ "" →
                  Subpop.group_name r = Some g.
Proof.
  destruct (get_subpopulations_filtered (serving with_subpopulations)
              subpopulations_2024 2011 2024 (Some "Veterans"))
    as (out & Hrun & Hperm & _ & Hin & _);
    [reflexivity | unfold INTEGER; lia | unfold INTEGER; lia |].
  exists out. split; [exact Hrun|]. split; [exact Hperm | exact Hin].
Defined.

Lemma get_filter_options_lists_witness :
  ∃ ys rs,
    get_filter_options (serving without_spending)
      = (Ok {| years := ys; regions := rs |},
         released (serving without_spending))
    ∧ StronglySorted Z.le ys ∧ NoDup ys
    ∧ StronglySorted String.le rs ∧ NoDup rs.
Proof.
  destruct (get_filter_options_lists (serving without_spending)
              trends_2023_2024)
    as (ys & rs & Hrun & Hsorted & Hnodup & _ & Hrs); [reflexivity|].
  simpl in Hrs. destruct Hrs as (Hrsorted & Hrnodup & _).
  exists ys, rs. repeat split; assumption.
Defined.

Lemma get_overview_comparison_consistent_witness :
  ∃ r,
    fst (get_overview (Some 2024) (serving (only_trends trends_2023_2024)))
      = Ok r
    ∧ ∃ p, p ≠ 0
           ∧ INTEGER p ∧ INTEGER (Overview.total r)
           ∧ Overview.prior_year_total r = Some p
           ∧ Overview.yoy_change r = Some (Overview.total r - p)
           ∧ Overview.yoy_pct r = Some (pct_change (Overview.total r) p).
Proof.
  destruct (get_overview (Some 2024) (serving (only_trends trends_2023_2024)))
    as [[r|e] w'] eqn:Hrun; [|by vm_compute in Hrun].
  exists r. split; [reflexivity|].
  destruct (get_overview_comparison_consistent
              (serving (only_trends trends_2023_2024)) trends_2023_2024
              (Some 2024) r)
    as [(Hnone & _)|Hsome]; [reflexivity | | | by rewrite Hrun | | exact Hsome].
  - unfold trends_2023_2024.
    constructor; [|constructor; [|constructor]];
      unfold INTEGER_columns, integer_or_null; simpl;
      (split_and!; intros n [= <-]; unfold INTEGER; lia).
  - intros y [= <-]. unfold INTEGER. lia.
  - vm_compute in Hrun. injection Hrun as <- _. discriminate Hnone.
Defined.

Lemma get_overview_latest_year_witness :
  ∃ m,
    (∀ r y, r ∈ trends_2023_2024 → Trend.year r = Some y → y ≤ m)
    ∧ get_overview None (serving (only_trends trends_2023_2024))
      = get_overview (Some m) (serving (only_trends trends_2023_2024)).
Proof.
  destruct (get_overview_latest_year (serving (only_trends trends_2023_2024))
              trends_2023_2024 (trend 2024 10605 4495 6110) 2024)
    as (m & _ & Hmax & Hrun & _);
    [reflexivity | apply list_elem_of_further, list_elem_of_here
     | reflexivity |].
  exists m. split; [exact Hmax | exact Hrun].
Defined.

Lemma default_year_of_yearless_file_witness :
  get_overview None (serving empty_datasets)
    = (Raise TypeError, leaked (serving empty_datasets))
  ∧ get_geography None None (serving empty_datasets)
    = (Raise TypeError, leaked (serving empty_datasets)).
Proof.
  destruct (default_year_of_yearless_file (serving empty_datasets) None)
    as [Htrends Hgeography].
  split.
  - apply (Htrends []); [reflexivity | constructor].
  - apply (Hgeography []); [reflexivity | constructor].
Defined.

Lemma get_geography_of_year_witness :
  ∃ out,
    get_geography (Some 2024) (Some "East County") (serving without_spending)
      = (Ok out, released (serving without_spending))
    ∧ out ≡ₚ filter (λ r, Is_true (geography_filter 2024
                                     (truthy (Some "East County")) r))
               geography_2024
    ∧ ∀ r, r ∈ out ↔
           r ∈ geography_2024 ∧ Geo.year r = Some 2024
           ∧ ∀ g, Some "East County" = Some g → g ≠ "" →
                  Geo.region r = Some g.
Proof.
  destruct (get_geography_of_year (serving without_spending)
              geography_2024 2024 (Some "East County"))
    as (out & Hrun & Hperm & _ & Hin & _);
    [reflexivity | unfold INTEGER; lia |].
  exists out. split; [exact Hrun|]. split; [exact Hperm | exact Hin].
Defined.

Lemma get_geography_latest_year_witness :
  ∃ m,
    (∀ r y, r ∈ geography_2024 → Geo.year r = Some y → y ≤ m)
    ∧ get_geography None None (serving without_spending)
      = get_geography (Some m) None (serving without_spending).
Proof.
  destruct (get_geography_latest_year (serving without_spending)
              geography_2024 None (geo 2023 "North County" 900 400 500) 2023)
    as (m & _ & Hmax & Hrun);
    [reflexivity | apply list_elem_of_here | reflexivity |].
  exists m. split; [exact Hmax | exact Hrun].
Defined.

Lemma transform_succeeds_iff_columns_bind_witness :
  (transform all_sources).1 = Ok tt
  ∧ ∀ name file, (name, file) ∈ csv_files →
                 is_Some (raw_dir all_sources !! file).
Proof.
  destruct (transform_succeeds_iff_columns_bind all_sources)
    as ([_ Hbind] & Hfiles & _).
  assert (Hok : (transform all_sources).1 = Ok tt).
  { apply Hbind. repeat split; reflexivity. }
  split; [exact Hok | exact (Hfiles Hok)].
Defined.

Lemma transform_preserves_inputs_witness :
  db (transform all_sources_on_used_db).2 !! "notes" = Some notes_table
  ∧ raw_dir (transform all_sources_on_used_db).2
    = raw_dir all_sources_on_used_db.
Proof.
  destruct (transform_preserves_inputs all_sources_on_used_db)
    as (Hraw & _ & Hdb).
  split; [|exact Hraw].
  rewrite (Hdb "notes"); [reflexivity|].
  intros file. unfold csv_files.
  rewrite !elem_of_cons, elem_of_nil.
  intros [H|[H|[H|H]]]; [discriminate H.. | exact H].
Defined.

Lemma transform_writes_ordered_datasets_witness :
  ∃ tr sp g,
    pit_trends (aggregated_dir (transform all_sources).2) = Some tr
    ∧ pit_subpopulations (aggregated_dir (transform all_sources).2) = Some sp
    ∧ pit_geography (aggregated_dir (transform all_sources).2) = Some g
    ∧ Forall (λ r, is_Some (Trend.year r)) tr
    ∧ Forall (λ r, is_Some (Subpop.year r) ∧ is_Some (Subpop.count r)) sp
    ∧ Forall (λ r, is_Some (Geo.year r)) g.
Proof.
  destruct (transform_writes_ordered_datasets all_sources)
    as (tr & sp & g & Htr & Hsp & Hg & Ytr & _ & Ysp & _ & Yg & _);
    [vm_compute; reflexivity|].
  exists tr, sp, g. repeat split; assumption.
Defined.

Lemma spending_one_row_per_fiscal_year_witness :
  ∃ out,
    homelessness_spending
      (aggregated_dir (transform all_sources_and_budget).2) = Some out
    ∧ NoDup (map Spending.fiscal_year out)
    ∧ ∀ fy, fy ∈ map Spending.fiscal_year out ↔
            ∃ b, b ∈ dept_budget_trends
                 ∧ Is_true (is_homelessness_expense b)
                 ∧ Budget.fiscal_year b = fy.
Proof.
  destruct (spending_one_row_per_fiscal_year all_sources_and_budget
              dept_budget_trends)
    as (out & Hfile & Hnodup & _ & Hkeys & _);
    [vm_compute; reflexivity | reflexivity |].
  exists out. repeat split; try assumption; apply Hkeys.
Defined.

Lemma filter_options_after_run_witness :
  ∃ ys rs,
    get_filter_options serving_after_first_run
      = (Ok {| years := ys; regions := rs |},
         released serving_after_first_run)
    ∧ ∀ y, y ∈ ys ↔
           ∃ r, r ∈ rows (table_for all_sources "pit_counts.csv")
                ∧ int_col r "year" = Some y.
Proof.
  destruct (filter_options_after_run all_sources serving_after_first_run)
    as (ys & rs & Hrun & Hys & _); [vm_compute; reflexivity | reflexivity |].
  exists ys, rs. split; [exact Hrun | exact Hys].
Defined.

Lemma processed_row_cast_policy_witness :
  ∃ out out',
    select_processed pit_counts_csv = Ok out
    ∧ select_processed
        {| columns := columns pit_counts_csv;
           rows := [counts_2024; counts_2023] |} = Ok out'
    ∧ out ≡ₚ out'.
Proof.
  assert (Hyear : int_col counts_tbd "year" = None)
    by (vm_compute; reflexivity).
  pose proof (processed_row_cast_policy (columns pit_counts_csv)
                [counts_2024; counts_2023] [] counts_tbd) as H.
  cbv zeta in H. rewrite Hyear in H.
  destruct H as (out & out' & Hout & Hout' & Hperm); [reflexivity|].
  exists out, out'. split; [exact Hout|]. split; [exact Hout' | exact Hperm].
Defined.

Lemma spending_trends_after_run_witness :
  ∃ out,
    get_spending_trends 2021 2026
        (serving (aggregated_dir (transform all_sources_and_budget).2))
      = (Ok out,
         released
           (serving (aggregated_dir (transform all_sources_and_budget).2)))
    ∧ NoDup (map Spending.fiscal_year out).
Proof.
  destruct (spending_trends_after_run all_sources_and_budget
              (serving (aggregated_dir (transform all_sources_and_budget).2))
              dept_budget_trends 2021 2026)
    as (out & Hrun & Hnodup & _);
    [vm_compute; reflexivity | reflexivity | reflexivity
     | unfold INTEGER; lia | unfold INTEGER; lia |].
  exists out. split; [exact Hrun | exact Hnodup].
Defined.

Lemma ingest_returns_usable_files_witness :
  (∃ lines,
     ingest false partial_disk
       = (Ok (filter (λ n, Is_true (usable partial_disk n)) EXPECTED_CSVS),
          {| RAW_DIR := directory (raw_files partial_disk);
             BUDGET_PARQUET := None;
             printed := lines |})
     ∧ length lines = 4%nat)
  ∧ ingest false raw_is_a_file = (Raise FileExistsError, raw_is_a_file).
Proof.
  split.
  - destruct (ingest_returns_usable_files false partial_disk) as [H _].
    apply H. discriminate.
  - destruct (ingest_returns_usable_files false raw_is_a_file) as [_ H].
    apply H. reflexivity.
Defined.
